(** * Parakeet transcription daemon: protocol and lifecycle

    A shallow embedding of [Sources/parakeet_daemon.py].  The daemon keeps a
    speech model resident, reads one JSON request per line on standard
    input and answers with one JSON line on standard output.

    Layout of the development:
    - Python values, exceptions and the handful of built-in operations the
      daemon applies to them;
    - [json.dumps] for the values the daemon prints;
    - the environment (model loader, file system, inference engine, JSON
      decoder) as a record of oracles;
    - a small monad threading the daemon object, the trace of observable
      actions and Python exceptions;
    - the methods of [ParakeetDaemon], in source order;
    - the properties of the protocol. *)

From Stdlib Require Import String Ascii List ZArith Bool Lia DecimalString.
Import ListNotations.
Local Open Scope list_scope.
Local Open Scope string_scope.
#[local] Set Warnings "-register-all".

(** ** Python values *)

(** Strings are sequences of code points below 256.  A float is kept as the
    bit pattern of its IEEE-754 double; the daemon never computes with one.
    Dictionaries are keyed by strings and keep insertion order, as Python's
    do.  [PObj] is an instance of a user class with its data attributes
    (the [AlignedResult] objects of the engine); attributes hold data, none
    is callable. *)
Inductive pyval : Type :=
| PNone
| PBool (b : bool)
| PInt (n : Z)
| PFloat (bits : Z)
| PStr (s : string)
| PList (xs : list pyval)
| PTuple (xs : list pyval)
| PDict (kvs : list (string * pyval))
| PObj (cls : string) (attrs : list (string * pyval)).

(** ** Exceptions *)

(** The classes the daemon raises or names in a handler.  Every value of
    [exn] is an instance of Python's [Exception]. *)
Inductive exc_class : Type :=
| JSONDecodeError
| FileNotFoundError
| PermissionError
| ValueError
| AttributeError
| TypeError
| RuntimeError
| KeyError
| IndexError
| PlainException
| OtherException (name : string).

(** [exn_msg e] is [str(e)]. *)
Record exn : Type := mkExn { exn_class : exc_class; exn_msg : string }.

Inductive result (A : Type) : Type :=
| Ok (a : A)
| Raise (e : exn).
Arguments Ok {A} a.
Arguments Raise {A} e.

Definition is_JSONDecodeError (e : exn) : bool :=
  match exn_class e with JSONDecodeError => true | _ => false end.

(** ** Strings *)

Definition dquote : ascii := "034"%char.
Definition backslash : ascii := "092"%char.

(** [str.isspace] on code points below 256. *)
Definition is_space (c : ascii) : bool :=
  let n := nat_of_ascii c in
  (((9 <=? n) && (n <=? 13)) || ((28 <=? n) && (n <=? 32))
   || (n =? 133) || (n =? 160))%nat.

Fixpoint lstrip (s : string) : string :=
  match s with
  | EmptyString => EmptyString
  | String c r => if is_space c then lstrip r else s
  end.

Fixpoint rstrip (s : string) : string :=
  match s with
  | EmptyString => EmptyString
  | String c r =>
      match rstrip r with
      | EmptyString => if is_space c then EmptyString else String c EmptyString
      | r' => String c r'
      end
  end.

(** [s.strip()] *)
Definition py_strip (s : string) : string := rstrip (lstrip s).

Fixpoint last_char (s : string) : option ascii :=
  match s with
  | EmptyString => None
  | String c EmptyString => Some c
  | String _ r => last_char r
  end.

Definition is_empty (s : string) : bool :=
  match s with EmptyString => true | _ => false end.

Fixpoint has_prefix (p s : string) : bool :=
  match p, s with
  | EmptyString, _ => true
  | String a p', String b s' => Ascii.eqb a b && has_prefix p' s'
  | String _ _, EmptyString => false
  end.

(** [p in s] for two strings. *)
Fixpoint is_substring (p s : string) : bool :=
  has_prefix p s ||
  match s with
  | EmptyString => false
  | String _ s' => is_substring p s'
  end.

(** Decimal rendering of an [int]. *)
Definition string_of_Z (n : Z) : string := NilZero.string_of_int (Z.to_int n).

(** ** Built-in operations on values *)

Fixpoint assoc {A : Type} (k : string) (kvs : list (string * A)) : option A :=
  match kvs with
  | [] => None
  | (k', v) :: rest => if String.eqb k k' then Some v else assoc k rest
  end.

Definition has_key {A : Type} (k : string) (kvs : list (string * A)) : bool :=
  match assoc k kvs with Some _ => true | None => false end.

(** [type(v).__name__] *)
Definition type_name (v : pyval) : string :=
  match v with
  | PNone => "NoneType"
  | PBool _ => "bool"
  | PInt _ => "int"
  | PFloat _ => "float"
  | PStr _ => "str"
  | PList _ => "list"
  | PTuple _ => "tuple"
  | PDict _ => "dict"
  | PObj cls _ => cls
  end.

Definition no_attribute (v : pyval) (name : string) : exn :=
  mkExn AttributeError
    ("'" ++ type_name v ++ "' object has no attribute '" ++ name ++ "'").

Definition not_callable (v : pyval) : exn :=
  mkExn TypeError ("'" ++ type_name v ++ "' object is not callable").

(** [bool(v)] *)
Definition truthy (v : pyval) : bool :=
  match v with
  | PNone => false
  | PBool b => b
  | PInt n => negb (n =? 0)%Z
  | PFloat bits => negb (Z.land bits 0x7FFFFFFFFFFFFFFF =? 0)%Z
  | PStr s => negb (is_empty s)
  | PList xs | PTuple xs => match xs with [] => false | _ => true end
  | PDict kvs => match kvs with [] => false | _ => true end
  | PObj _ _ => true
  end.

Definition isinstance_list (v : pyval) : bool :=
  match v with PList _ => true | _ => false end.

Definition isinstance_dict (v : pyval) : bool :=
  match v with PDict _ => true | _ => false end.

(** [hasattr(v, name)] for the data attributes the daemon asks about; the
    built-in types have none of them. *)
Definition hasattr (v : pyval) (name : string) : bool :=
  match v with
  | PObj _ attrs => has_key name attrs
  | _ => false
  end.

(** [v.name] *)
Definition getattr (v : pyval) (name : string) : result pyval :=
  match v with
  | PObj _ attrs =>
      match assoc name attrs with
      | Some x => Ok x
      | None => Raise (no_attribute v name)
      end
  | _ => Raise (no_attribute v name)
  end.

(** [len(v)] *)
Definition py_len (v : pyval) : result Z :=
  match v with
  | PStr s => Ok (Z.of_nat (String.length s))
  | PList xs | PTuple xs => Ok (Z.of_nat (List.length xs))
  | PDict kvs => Ok (Z.of_nat (List.length kvs))
  | _ => Raise (mkExn TypeError
                  ("object of type '" ++ type_name v ++ "' has no len()"))
  end.

(** [v[0]] *)
Definition py_first (v : pyval) : result pyval :=
  match v with
  | PList (x :: _) => Ok x
  | PList [] => Raise (mkExn IndexError "list index out of range")
  | PTuple (x :: _) => Ok x
  | PTuple [] => Raise (mkExn IndexError "tuple index out of range")
  | PStr (String c _) => Ok (PStr (String c EmptyString))
  | PStr EmptyString => Raise (mkExn IndexError "string index out of range")
  | PDict _ => Raise (mkExn KeyError "0")
  | _ => Raise (mkExn TypeError
                  ("'" ++ type_name v ++ "' object is not subscriptable"))
  end.

(** [key in v] for a string [key] *)
Definition py_contains (key : string) (v : pyval) : result bool :=
  match v with
  | PDict kvs => Ok (has_key key kvs)
  | PList xs | PTuple xs =>
      Ok (existsb (fun x => match x with
                            | PStr s => String.eqb s key
                            | _ => false
                            end) xs)
  | PStr s => Ok (is_substring key s)
  | _ => Raise (mkExn TypeError
                  ("argument of type '" ++ type_name v ++ "' is not iterable"))
  end.

(** [v[key]] for a string [key] *)
Definition py_getitem (v : pyval) (key : string) : result pyval :=
  match v with
  | PDict kvs =>
      match assoc key kvs with
      | Some x => Ok x
      | None => Raise (mkExn KeyError ("'" ++ key ++ "'"))
      end
  | PList _ =>
      Raise (mkExn TypeError "list indices must be integers or slices, not str")
  | PTuple _ =>
      Raise (mkExn TypeError "tuple indices must be integers or slices, not str")
  | PStr _ =>
      Raise (mkExn TypeError "string indices must be integers, not 'str'")
  | _ => Raise (mkExn TypeError
                  ("'" ++ type_name v ++ "' object is not subscriptable"))
  end.

(** [v.get(key)]: the dictionary method; any other value has no such
    method. *)
Definition py_get (v : pyval) (key : string) : result pyval :=
  match v with
  | PDict kvs =>
      match assoc key kvs with
      | Some x => Ok x
      | None => Ok PNone
      end
  | PObj _ attrs =>
      match assoc "get" attrs with
      | Some f => Raise (not_callable f)
      | None => Raise (no_attribute v "get")
      end
  | _ => Raise (no_attribute v "get")
  end.

(** [v == s] for a string literal [s] *)
Definition py_eq_str (v : pyval) (s : string) : bool :=
  match v with
  | PStr x => String.eqb x s
  | _ => false
  end.

(** [v.strip()] *)
Definition py_strip_method (v : pyval) : result pyval :=
  match v with
  | PStr s => Ok (PStr (py_strip s))
  | PObj _ attrs =>
      match assoc "strip" attrs with
      | Some f => Raise (not_callable f)
      | None => Raise (no_attribute v "strip")
      end
  | _ => Raise (no_attribute v "strip")
  end.

(** ** The environment *)

(** Where an exception is being handled when [traceback.format_exc()] is
    called: the text lists the frames between the handler and the raise. *)
Inductive handler_site : Type :=
| InTranscribeAudio
| InProcessRequest
| InRunDaemon.

(** Everything the daemon calls but does not define: the model loader, the
    file system, numpy, MLX and the inference engine, the JSON decoder, and
    the interpreter's renderings of values and tracebacks.  Each call that
    can fail returns a [result].  The answers are functions of the
    question: during one run the outside does not change. *)
Record World : Type := mkWorld {
  Model : Type;
  Config : Type;
  MlxArray : Type;
  Mel : Type;
  (** [from_pretrained(repo, local_files_only=flag)] *)
  from_pretrained : string -> bool -> result Model;
  (** [Path(p).exists()] *)
  path_exists : string -> result bool;
  (** [os.access(p, os.R_OK)] *)
  os_access : string -> result bool;
  (** [np.fromfile(p, dtype=np.float32)]: the samples, as bit patterns *)
  np_fromfile : string -> result (list Z);
  (** [mx.array(samples.astype(np.float32))] *)
  mx_array : list Z -> result MlxArray;
  (** [model.preprocessor_config] *)
  preprocessor_config : Model -> result Config;
  get_logmel : MlxArray -> Config -> result Mel;
  (** [model.generate(mel)] *)
  generate : Model -> Mel -> result pyval;
  json_loads : string -> result pyval;
  (** [str(v)] of a value that is not a string *)
  py_repr : pyval -> string;
  (** the text [json.dumps] writes for a float *)
  float_repr : Z -> string;
  (** the message of the [TypeError] of [Path(v)] for a [v] that is no path *)
  path_type_error : pyval -> string;
  format_exc : handler_site -> exn -> string
}.

(** [str(v)], as [f"{v}"] renders it too. *)
Definition py_str (w : World) (v : pyval) : string :=
  match v with
  | PStr s => s
  | _ => py_repr w v
  end.

(** [Path(v)]: the path as a string. *)
Definition Path (w : World) (v : pyval) : result string :=
  match v with
  | PStr s => Ok s
  | _ => Raise (mkExn TypeError (path_type_error w v))
  end.

(** ** json.dumps *)

Definition hex_digit (n : nat) : ascii :=
  nth n ["0"; "1"; "2"; "3"; "4"; "5"; "6"; "7"; "8"; "9";
         "a"; "b"; "c"; "d"; "e"; "f"]%char "0"%char.

(** The encoder escapes the quote, the backslash and every code point
    outside [' '..'~'] (the default [ensure_ascii=True]). *)
Definition escape_char (c : ascii) : string :=
  let n := nat_of_ascii c in
  if Ascii.eqb c dquote then String backslash (String dquote EmptyString)
  else if Ascii.eqb c backslash then String backslash (String backslash EmptyString)
  else if (n =? 10)%nat then String backslash "n"
  else if (n =? 13)%nat then String backslash "r"
  else if (n =? 9)%nat then String backslash "t"
  else if (n =? 8)%nat then String backslash "b"
  else if (n =? 12)%nat then String backslash "f"
  else if ((32 <=? n) && (n <=? 126))%nat then String c EmptyString
  else String backslash
         ("u00" ++ String (hex_digit (n / 16))
                     (String (hex_digit (n mod 16)) EmptyString)).

Fixpoint escape_string (s : string) : string :=
  match s with
  | EmptyString => EmptyString
  | String c r => escape_char c ++ escape_string r
  end.

Definition json_string (s : string) : string :=
  String dquote (escape_string s ++ String dquote EmptyString).

Definition json_member (k t : string) : string := json_string k ++ ": " ++ t.

Definition not_serializable (cls : string) : exn :=
  mkExn TypeError ("Object of type " ++ cls ++ " is not JSON serializable").

Fixpoint json_dumps (w : World) (v : pyval) : result string :=
  match v with
  | PNone => Ok "null"
  | PBool b => Ok (if b then "true" else "false")
  | PInt n => Ok (string_of_Z n)
  | PFloat bits => Ok (float_repr w bits)
  | PStr s => Ok (json_string s)
  | PList xs | PTuple xs =>
      match
        (fix items (xs : list pyval) : result (list string) :=
           match xs with
           | [] => Ok []
           | x :: rest =>
               match json_dumps w x with
               | Ok t =>
                   match items rest with
                   | Ok ts => Ok (t :: ts)
                   | Raise e => Raise e
                   end
               | Raise e => Raise e
               end
           end) xs
      with
      | Ok ts => Ok ("[" ++ String.concat ", " ts ++ "]")
      | Raise e => Raise e
      end
  | PDict kvs =>
      match
        (fix members (kvs : list (string * pyval)) : result (list string) :=
           match kvs with
           | [] => Ok []
           | (k, x) :: rest =>
               match json_dumps w x with
               | Ok t =>
                   match members rest with
                   | Ok ts => Ok (json_member k t :: ts)
                   | Raise e => Raise e
                   end
               | Raise e => Raise e
               end
           end) kvs
      with
      | Ok ts => Ok ("{" ++ String.concat ", " ts ++ "}")
      | Raise e => Raise e
      end
  | PObj cls _ => Raise (not_serializable cls)
  end.

(** ** Observable actions and the daemon monad *)

(** What a run does to the outside, in order: lines printed (and flushed)
    on standard output, and calls into the loader, the file system and the
    engine. *)
Inductive action : Type :=
| Stdout (line : string)
| LoadModel (repo : string) (local_files_only : bool)
| PathExists (p : string)
| OsAccess (p : string)
| NpFromfile (p : string)
| MxArray
| GetLogmel
| Generate.

(** The attributes of a [ParakeetDaemon]. *)
Record Daemon (w : World) : Type := mkDaemon {
  model : option (Model w);
  model_repo : string;
  running : bool
}.
Arguments mkDaemon {w} model model_repo running.
Arguments model {w} d.
Arguments model_repo {w} d.
Arguments running {w} d.

(** A computation over the object state [S]: the actions it performed, the
    state it left (mutations survive an exception, as in Python) and its
    value or the exception it raised. *)
Definition M (S A : Type) : Type := S -> list action * S * result A.

Definition ret {S A} (a : A) : M S A := fun s => ([], s, Ok a).

Definition raise {S A} (e : exn) : M S A := fun s => ([], s, Raise e).

Definition bind {S A B} (m : M S A) (f : A -> M S B) : M S B :=
  fun s =>
    match m s with
    | (t, s', Ok a) => let '(t', s'', r) := f a s' in ((t ++ t')%list, s'', r)
    | (t, s', Raise e) => (t, s', Raise e)
    end.

(** [try: m  except Exception as e: h e] *)
Definition try_except {S A} (m : M S A) (h : exn -> M S A) : M S A :=
  fun s =>
    match m s with
    | (t, s', Raise e) => let '(t', s'', r) := h e s' in ((t ++ t')%list, s'', r)
    | r => r
    end.

(** A pure step that may raise. *)
Definition lift {S A} (r : result A) : M S A := fun s => ([], s, r).

(** A call to the outside: the action is recorded, the oracle answers. *)
Definition perform {S A} (a : action) (r : result A) : M S A :=
  fun s => ([a], s, r).

Definition get {S} : M S S := fun s => ([], s, Ok s).

Definition put {S} (s' : S) : M S unit := fun _ => ([], s', Ok tt).

Declare Scope daemon_scope.
Delimit Scope daemon_scope with daemon.
Notation "x <- m ;; k" := (bind m (fun x => k))
  (at level 61, m at next level, right associativity) : daemon_scope.
Notation "m ;; k" := (bind m (fun _ => k))
  (at level 61, right associativity) : daemon_scope.
Local Open Scope daemon_scope.

(** [print(json.dumps(v), flush=True)] *)
Definition print_json {S} (w : World) (v : pyval) : M S unit :=
  line <- lift (json_dumps w v) ;;
  perform (Stdout line) (Ok tt).

(** A status line: [{"status": status, "message": message}]. *)
Definition status_message (status message : string) : pyval :=
  PDict [("status", PStr status); ("message", PStr message)].

(** The error monad of the pure steps. *)
Definition rbind {A B} (r : result A) (f : A -> result B) : result B :=
  match r with
  | Ok a => f a
  | Raise e => Raise e
  end.
Notation "'let*' x ':=' r 'in' k" := (rbind r (fun x => k))
  (at level 10, x pattern, r at level 100, k at level 200).

(** ** class ParakeetDaemon *)

(** [__init__] *)
Definition new_daemon (w : World) : Daemon w :=
  mkDaemon None "mlx-community/parakeet-tdt-0.6b-v3" true.

Definition set_model {w} (m : Model w) : M (Daemon w) unit :=
  st <- get ;; put (mkDaemon (Some m) (model_repo st) (running st)).

Definition set_running {w} (b : bool) : M (Daemon w) unit :=
  st <- get ;; put (mkDaemon (model st) (model_repo st) b).

(** [_signal_handler] *)
Definition signal_handler (w : World) : M (Daemon w) unit :=
  set_running false ;;
  print_json w (status_message "shutdown" "Daemon shutting down").

(** [initialize_model] *)
Definition initialize_model (w : World) : M (Daemon w) bool :=
  try_except
    (print_json w (status_message "loading" "Loading Parakeet v3 model...") ;;
     try_except
       (st <- get ;;
        m <- perform (LoadModel (model_repo st) true)
               (from_pretrained w (model_repo st) true) ;;
        set_model m ;;
        print_json w
          (status_message "ready" "Model loaded offline successfully"))
       (fun offline_error =>
          print_json w
            (status_message "warning"
               ("Offline loading failed: " ++ exn_msg offline_error)) ;;
          print_json w
            (status_message "loading" "Falling back to online loading...") ;;
          st <- get ;;
          m <- perform (LoadModel (model_repo st) false)
                 (from_pretrained w (model_repo st) false) ;;
          set_model m ;;
          print_json w
            (status_message "ready" "Model loaded online successfully")) ;;
     ret true)
    (fun e =>
       print_json w
         (status_message "error" ("Failed to load model: " ++ exn_msg e)) ;;
       ret false).

(** [load_raw_pcm] *)
Definition load_raw_pcm (w : World) (pcm_file_path : pyval)
    : M (Daemon w) (list Z) :=
  try_except
    (pcm_path <- lift (Path w pcm_file_path) ;;
     found <- perform (PathExists pcm_path) (path_exists w pcm_path) ;;
     if negb found then
       raise (mkExn FileNotFoundError
                ("PCM file not found: " ++ py_str w pcm_file_path))
     else
       readable <- perform (OsAccess pcm_path) (os_access w pcm_path) ;;
       if negb readable then
         raise (mkExn PermissionError
                  ("Cannot read PCM file: " ++ py_str w pcm_file_path))
       else
         audio_data <- perform (NpFromfile pcm_path) (np_fromfile w pcm_path) ;;
         if (Z.of_nat (List.length audio_data) =? 0)%Z then
           raise (mkExn ValueError "PCM file is empty")
         else ret audio_data)
    (fun e =>
       raise (mkExn PlainException ("Error loading PCM data: " ++ exn_msg e))).

(** [transcribe_audio], first part: from the path to the raw output of
    [model.generate]. *)
Definition engine_output (w : World) (pcm_file_path : pyval)
    : M (Daemon w) pyval :=
  st <- get ;;
  match model st with
  | None => raise (mkExn RuntimeError "Model not initialized")
  | Some m =>
      audio_data <- load_raw_pcm w pcm_file_path ;;
      audio_mlx <- perform MxArray (mx_array w audio_data) ;;
      config <- lift (preprocessor_config w m) ;;
      mel <- perform GetLogmel (get_logmel w audio_mlx config) ;;
      perform Generate (generate w m mel)
  end.

(** [x.name if hasattr(x, name)], else the value the variable held. *)
Definition attr_or (x : pyval) (name : string) (held : pyval) : result pyval :=
  if hasattr x name then getattr x name else Ok held.

(** The five tests of the [if]/[elif] chain, each with Python's
    short-circuit [and]. *)
Definition is_nonempty_list (r : pyval) : result bool :=
  if isinstance_list r then let* n := py_len r in Ok (0 <? n)%Z
  else Ok false.

Definition has_nonempty_texts_attr (r : pyval) : result bool :=
  if hasattr r "texts" then
    let* texts := getattr r "texts" in
    let* n := py_len texts in Ok (0 <? n)%Z
  else Ok false.

Definition is_dict_with_text (r : pyval) : result bool :=
  if isinstance_dict r then py_contains "text" r else Ok false.

Definition is_dict_with_nonempty_texts (r : pyval) : result bool :=
  if isinstance_dict r then
    let* present := py_contains "texts" r in
    if present then
      let* texts := py_getitem r "texts" in
      let* n := py_len texts in Ok (0 <? n)%Z
    else Ok false
  else Ok false.

(** [transcribe_audio], second part: text, language and confidence out of
    whatever shape the engine returned. *)
Definition extract_fields (w : World) (r : pyval)
    : result (pyval * pyval * pyval) :=
  let text := PStr "" in
  let detected_language := PNone in
  let confidence := PNone in
  let* listy := is_nonempty_list r in
  if listy then
    let* result_obj := py_first r in
    let* text :=
      (if hasattr result_obj "text" then getattr result_obj "text"
       else Ok (PStr (py_str w result_obj))) in
    let* detected_language := attr_or result_obj "language" detected_language in
    let* confidence := attr_or result_obj "confidence" confidence in
    Ok (text, detected_language, confidence)
  else if hasattr r "text" then
    let* text := getattr r "text" in
    let* detected_language := attr_or r "language" detected_language in
    let* confidence := attr_or r "confidence" confidence in
    Ok (text, detected_language, confidence)
  else
    let* alternatives := has_nonempty_texts_attr r in
    if alternatives then
      let* texts := getattr r "texts" in
      let* text := py_first texts in
      Ok (text, detected_language, confidence)
    else
      let* keyed := is_dict_with_text r in
      if keyed then
        let* text := py_getitem r "text" in
        let* detected_language := py_get r "language" in
        let* confidence := py_get r "confidence" in
        Ok (text, detected_language, confidence)
      else
        let* keyed_alternatives := is_dict_with_nonempty_texts r in
        if keyed_alternatives then
          let* texts := py_getitem r "texts" in
          let* text := py_first texts in
          Ok (text, detected_language, confidence)
        else
          Raise (mkExn AttributeError
                   ("Cannot extract text from result: " ++ py_str w r)).

(** [text.strip() if text else ""] *)
Definition strip_text (text : pyval) : result pyval :=
  if truthy text then py_strip_method text else Ok (PStr "").

Definition success_response (text language confidence : pyval) : pyval :=
  PDict [("status", PStr "success"); ("text", text);
         ("language", language); ("confidence", confidence)].

Definition error_response (message traceback : string) : pyval :=
  PDict [("status", PStr "error"); ("message", PStr message);
         ("traceback", PStr traceback)].

(** The body of the [try] of [transcribe_audio]. *)
Definition transcribe_audio_body (w : World) (pcm_file_path : pyval)
    : M (Daemon w) pyval :=
  r <- engine_output w pcm_file_path ;;
  fields <- lift (extract_fields w r) ;;
  let '(text, detected_language, confidence) := fields in
  text <- lift (strip_text text) ;;
  ret (success_response text detected_language confidence).

(** [transcribe_audio] *)
Definition transcribe_audio (w : World) (pcm_file_path : pyval)
    : M (Daemon w) pyval :=
  try_except (transcribe_audio_body w pcm_file_path)
    (fun e =>
       ret (error_response (exn_msg e) (format_exc w InTranscribeAudio e))).

(** [process_request] *)
Definition process_request (w : World) (request_data : pyval)
    : M (Daemon w) pyval :=
  try_except
    (present <- lift (py_contains "pcm_path" request_data) ;;
     if negb present then
       ret (status_message "error" "Missing 'pcm_path' in request")
     else
       pcm_path <- lift (py_getitem request_data "pcm_path") ;;
       transcribe_audio w pcm_path)
    (fun e =>
       ret (error_response ("Request processing failed: " ++ exn_msg e)
              (format_exc w InProcessRequest e))).

(** How one pass through the body of the [while] ends. *)
Inductive control : Type :=
| Continue
| Break.

(** The body of the [while] of [run_daemon], given what [readline]
    returned. *)
Definition serve_line (w : World) (line : string) : M (Daemon w) control :=
  try_except
    (if is_empty line then ret Break
     else
       let line := py_strip line in
       if is_empty line then ret Continue
       else
         match json_loads w line with
         | Raise e =>
             if is_JSONDecodeError e then
               print_json w
                 (status_message "error" ("Invalid JSON: " ++ exn_msg e)) ;;
               ret Continue
             else raise e
         | Ok request =>
             command <- lift (py_get request "command") ;;
             if py_eq_str command "ping" then
               print_json w (status_message "pong" "Daemon is alive") ;;
               ret Continue
             else
               command <- lift (py_get request "command") ;;
               if py_eq_str command "shutdown" then
                 set_running false ;;
                 print_json w
                   (status_message "shutdown" "Shutting down gracefully") ;;
                 ret Break
               else
                 response <- process_request w request ;;
                 print_json w response ;;
                 ret Continue
         end)
    (fun e =>
       print_json w
         (error_response ("Daemon error: " ++ exn_msg e)
            (format_exc w InRunDaemon e)) ;;
       ret Continue).

(** What standard input and the operating system deliver while the daemon
    waits in [readline]: a line, a termination signal (the handler runs and
    the read resumes), or a [KeyboardInterrupt].  The end of the list is the
    end of the stream. *)
Inductive event : Type :=
| EvLine (line : string)
| EvSignal
| EvInterrupt.

(** Why the [while] loop was left. *)
Inductive loop_end : Type :=
| NotRunning
| EndOfInput
| Interrupted
| Broke.

(** The [while self.running] loop.  [in_read] tells that the loop test has
    been passed and the daemon is inside [readline]. *)
Fixpoint main_loop (w : World) (in_read : bool) (input : list event)
    : M (Daemon w) loop_end :=
  st <- get ;;
  if negb in_read && negb (running st) then ret NotRunning
  else
    match input with
    | [] => ret EndOfInput
    | EvSignal :: rest => signal_handler w ;; main_loop w true rest
    | EvInterrupt :: _ => ret Interrupted
    | EvLine line :: rest =>
        c <- serve_line w line ;;
        match c with
        | Continue => main_loop w false rest
        | Break => ret Broke
        end
    end.

(** [run_daemon]; the value is the exit status: 1 from [sys.exit(1)], 0
    when the method returns. *)
Definition run_daemon (w : World) (input : list event) : M (Daemon w) Z :=
  print_json w (status_message "starting" "Parakeet daemon starting...") ;;
  loaded <- initialize_model w ;;
  if negb loaded then ret 1%Z
  else
    print_json w (status_message "listening" "Daemon ready for requests") ;;
    main_loop w false input ;;
    print_json w (status_message "stopped" "Daemon stopped") ;;
    ret 0%Z.

(** [main]: the actions of a whole run and the exit status of the process
    (1 too when an exception reaches the top level). *)
Definition main (w : World) (input : list event) : list action * Z :=
  match run_daemon w input (new_daemon w) with
  | (t, _, Ok status) => (t, status)
  | (t, _, Raise _) => (t, 1%Z)
  end.

(** ** Sample environments *)

(** A request line as the caller writes it: a JSON object of string
    members. *)
Definition request_line (members : list (string * string)) : string :=
  "{" ++ String.concat ", "
           (map (fun kv => json_member (fst kv) (json_string (snd kv))) members)
      ++ "}".

Definition request_of (members : list (string * string)) : pyval :=
  PDict (map (fun kv => (fst kv, PStr (snd kv))) members).

(** A decoder that knows the request lines of the examples, two values that
    are no objects, and rejects everything else. *)
Definition sample_requests : list (list (string * string)) :=
  [ [("command", "ping")];
    [("command", "shutdown")];
    [("pcm_path", "/tmp/audio.pcm")];
    [("pcm_path", "/nonexistent")];
    [("pcm_path", "/tmp/secret.pcm")];
    [("pcm_path", "/tmp/empty.pcm")];
    [("id", "7")] ].

Definition sample_loads (line : string) : result pyval :=
  match find (fun r => String.eqb line (request_line r)) sample_requests with
  | Some r => Ok (request_of r)
  | None =>
      if String.eqb line "42" then Ok (PInt 42)
      else if String.eqb line "[]" then Ok (PList [])
      else Raise (mkExn JSONDecodeError
                    "Expecting value: line 1 column 1 (char 0)")
  end.

(** An environment with a stub engine: [loads] answers the two load
    attempts, [/tmp/audio.pcm] holds two samples, [/tmp/empty.pcm] none,
    [/tmp/secret.pcm] cannot be read, nothing else exists, and the engine
    returns [output] for any input. *)
Definition stub_world (loads : bool -> result unit) (output : pyval) : World :=
  {| Model := unit;
     Config := unit;
     MlxArray := list Z;
     Mel := list Z;
     from_pretrained := fun _ local_files_only => loads local_files_only;
     path_exists := fun p =>
       Ok (String.eqb p "/tmp/audio.pcm" || String.eqb p "/tmp/secret.pcm"
           || String.eqb p "/tmp/empty.pcm");
     os_access := fun p =>
       Ok (String.eqb p "/tmp/audio.pcm" || String.eqb p "/tmp/empty.pcm");
     np_fromfile := fun p =>
       if String.eqb p "/tmp/audio.pcm" then Ok [0x3F800000; 0xBF000000]%Z
       else Ok [];
     mx_array := fun samples => Ok samples;
     preprocessor_config := fun _ => Ok tt;
     get_logmel := fun samples _ => Ok samples;
     generate := fun _ _ => Ok output;
     json_loads := sample_loads;
     py_repr := fun v => "<" ++ type_name v ++ ">";
     float_repr := fun _ => "0.95";
     path_type_error := fun v =>
       "expected str, bytes or os.PathLike object, not " ++ type_name v;
     format_exc := fun _ e =>
       "Traceback (most recent call last): " ++ exn_msg e |}.

Definition loads_offline (local_files_only : bool) : result unit := Ok tt.

Definition loads_online_only (local_files_only : bool) : result unit :=
  if local_files_only then
    Raise (mkExn (OtherException "LocalEntryNotFoundError")
             "no cached snapshot")
  else Ok tt.

(** ** Vocabulary of the properties *)

(** The text of the lines the daemon prints. *)
Definition status_line (status message : string) : string :=
  "{" ++ String.concat ", "
           [json_member "status" (json_string status);
            json_member "message" (json_string message)]
      ++ "}".

Definition error_line (message traceback : string) : string :=
  "{" ++ String.concat ", "
           [json_member "status" (json_string "error");
            json_member "message" (json_string message);
            json_member "traceback" (json_string traceback)]
      ++ "}".

Definition success_line (text language confidence : string) : string :=
  "{" ++ String.concat ", "
           [json_member "status" (json_string "success");
            json_member "text" (json_string text);
            json_member "language" language;
            json_member "confidence" confidence]
      ++ "}".

(** The one line the loop prints for the response of [process_request]:
    its serialization, or the loop's own error line when [json.dumps]
    rejects it. *)
Definition response_line (w : World) (response : pyval) : string :=
  match json_dumps w response with
  | Ok line => line
  | Raise e =>
      error_line ("Daemon error: " ++ exn_msg e) (format_exc w InRunDaemon e)
  end.

(** The status of a response. *)
Definition status_of (response : pyval) : option pyval :=
  match response with
  | PDict kvs => assoc "status" kvs
  | _ => None
  end.

(** [line] is not blank, decodes to [request], and the dispatcher sends it
    down the default path: its command is neither ping nor shutdown. *)
Definition reaches_transcription (w : World) (line : string) (request : pyval)
    : Prop :=
  is_empty (py_strip line) = false /\
  json_loads w (py_strip line) = Ok request /\
  exists command,
    py_get request "command" = Ok command /\
    py_eq_str command "ping" = false /\
    py_eq_str command "shutdown" = false.

(** The loop is about to read: either its test passes or it is already
    inside [readline]. *)
Definition awaiting_input {w} (in_read : bool) (st : Daemon w) : Prop :=
  in_read = true \/ running st = true.

(** No test of the [if]/[elif] chain of [transcribe_audio] accepts [r]. *)
Definition accepted_by (test : pyval -> result bool) (r : pyval) : bool :=
  match test r with
  | Ok b => b
  | Raise _ => false
  end.

Definition recognized (r : pyval) : bool :=
  accepted_by is_nonempty_list r
  || hasattr r "text"
  || accepted_by has_nonempty_texts_attr r
  || accepted_by is_dict_with_text r
  || accepted_by is_dict_with_nonempty_texts r.

(** The five result shapes of the engine, and the value of each shape
    that carries a given text with, when present, a language and a
    confidence. *)
Inductive shape : Type :=
| ListOfObjects
| SingleObject
| ObjectWithTexts
| MappingWithText
| MappingWithTexts.

Definition optional_member (name : string) (v : option pyval)
    : list (string * pyval) :=
  match v with
  | Some x => [(name, x)]
  | None => []
  end.

Definition metadata (language confidence : option pyval)
    : list (string * pyval) :=
  (optional_member "language" language
   ++ optional_member "confidence" confidence)%list.

Definition shaped (sh : shape) (text : string)
    (language confidence : option pyval) : pyval :=
  match sh with
  | ListOfObjects =>
      PList [PObj "AlignedResult"
               (("text", PStr text) :: metadata language confidence)]
  | SingleObject =>
      PObj "AlignedResult" (("text", PStr text) :: metadata language confidence)
  | ObjectWithTexts =>
      PObj "BatchResult"
        (("texts", PList [PStr text]) :: metadata language confidence)
  | MappingWithText =>
      PDict (("text", PStr text) :: metadata language confidence)
  | MappingWithTexts =>
      PDict (("texts", PList [PStr text]) :: metadata language confidence)
  end.

(** The branches of the chain that read language and confidence. *)
Definition reads_metadata (sh : shape) : bool :=
  match sh with
  | ListOfObjects | SingleObject | MappingWithText => true
  | ObjectWithTexts | MappingWithTexts => false
  end.

Definition or_none (v : option pyval) : pyval :=
  match v with
  | Some x => x
  | None => PNone
  end.

(** Whether the engine's result carries the field [name] where the chain
    would read it. *)
Definition supplies (name : string) (r : pyval) : bool :=
  match r with
  | PList (x :: _) => hasattr x name
  | PObj _ _ => hasattr r name
  | PDict kvs => has_key name kvs
  | _ => false
  end.

Definition is_load (a : action) : bool :=
  match a with LoadModel _ _ => true | _ => false end.

(** Further sample environments. *)
Definition never_loads (local_files_only : bool) : result unit :=
  Raise (mkExn (OtherException "OSError") "model files are missing").

(** The daemon of a stub environment once its model is loaded. *)
Definition loaded (loads : bool -> result unit) (output : pyval)
    : Daemon (stub_world loads output) :=
  @mkDaemon (stub_world loads output) (Some tt)
    "mlx-community/parakeet-tdt-0.6b-v3" true.

(** An engine that returns one [AlignedResult] carrying a text only. *)
Definition sample_world : World :=
  stub_world loads_offline
    (PList [PObj "AlignedResult" [("text", PStr "  hello world ")]]).

Definition sample_daemon : Daemon sample_world :=
  loaded loads_offline
    (PList [PObj "AlignedResult" [("text", PStr "  hello world ")]]).

(** An engine that returns an integer. *)
Definition odd_world : World := stub_world loads_offline (PInt 3).

Definition odd_daemon : Daemon odd_world := loaded loads_offline (PInt 3).

(** Engines that return the text [hello], the language [en] and the
    confidence 0.95 in a given shape. *)
Definition sample_language : option pyval := Some (PStr "en").

Definition sample_confidence : option pyval :=
  Some (PFloat 0x3FEE666666666666).

Definition shaped_world (sh : shape) : World :=
  stub_world loads_offline
    (shaped sh " hello" sample_language sample_confidence).

Definition shaped_daemon (sh : shape) : Daemon (shaped_world sh) :=
  loaded loads_offline (shaped sh " hello" sample_language sample_confidence).

Definition ping_line : string := request_line [("command", "ping")].

Definition shutdown_line : string := request_line [("command", "shutdown")].

Definition transcribe_line (path : string) : string :=
  request_line [("pcm_path", path)].

(** The actions of serving [/tmp/audio.pcm] up to the engine's answer. *)
Definition audio_actions : list action :=
  [PathExists "/tmp/audio.pcm"; OsAccess "/tmp/audio.pcm";
   NpFromfile "/tmp/audio.pcm"; MxArray; GetLogmel; Generate].

(** The daemon object once [initialize_model] has stored the model. *)
Definition with_model {w} (st : Daemon w) (m : Model w) : Daemon w :=
  mkDaemon (Some m) (model_repo st) (running st).

(** Anything but a call of the model loader. *)
Definition not_load (a : action) : bool := negb (is_load a).

(** The values [json.loads] returns for a document that is not an
    object: null, a boolean, a number, a string or an array. *)
Definition json_non_object (v : pyval) : bool :=
  match v with
  | PNone | PBool _ | PInt _ | PFloat _ | PStr _ | PList _ => true
  | PTuple _ | PDict _ | PObj _ _ => false
  end.

(** The daemon holds a model and [request] names the file [p]. *)
Definition asks_for {w} (st : Daemon w) (request : pyval) (p : string) : Prop :=
  model st <> None /\ py_getitem request "pcm_path" = Ok (PStr p).

(** A computation that leaves the daemon object as it found it. *)
Definition preserves {S A} (m : M S A) : Prop :=
  forall s, snd (fst (m s)) = s.

(** A computation all of whose actions satisfy [P]. *)
Definition performs_only {S A} (P : action -> bool) (m : M S A) : Prop :=
  forall s, forallb P (fst (fst (m s))) = true.

(** ** Vocabulary of the further properties *)

(** The daemon with its running flag cleared. *)
Definition stopped {w} (st : Daemon w) : Daemon w :=
  mkDaemon (model st) (model_repo st) false.

(** [st'] holds the model and the repository name of [st], and its
    running flag is clear if that of [st] was. *)
Definition keeps_model {w} (st st' : Daemon w) : Prop :=
  model st' = model st
  /\ model_repo st' = model_repo st
  /\ (running st = false -> running st' = false).

(** A computation that moves the state along [R]. *)
Definition steadily {S A} (R : S -> S -> Prop) (m : M S A) : Prop :=
  forall s, R s (snd (fst (m s))).

Definition is_stdout (a : action) : bool :=
  match a with Stdout _ => true | _ => false end.

(** The number of lines a trace prints. *)
Definition printed (t : list action) : nat :=
  List.length (filter is_stdout t).

Definition silent (a : action) : bool := negb (is_stdout a).

Definition isinstance_str (v : pyval) : bool :=
  match v with PStr _ => true | _ => false end.

(** The calls [load_raw_pcm] makes. *)
Definition is_file_access (a : action) : bool :=
  match a with
  | PathExists _ | OsAccess _ | NpFromfile _ => true
  | _ => false
  end.

(** The named members of a result: the attributes of an object, the
    entries of a dictionary. *)
Definition members (r : pyval) : option (list (string * pyval)) :=
  match r with
  | PObj _ attrs => Some attrs
  | PDict kvs => Some kvs
  | _ => None
  end.

(** [x.name] when [x] is an object that has it, [None] otherwise. *)
Definition attribute (x : pyval) (name : string) : pyval :=
  match x with
  | PObj _ attrs => or_none (assoc name attrs)
  | _ => PNone
  end.

(** A character of the range [' '..'~']. *)
Definition printable (c : ascii) : bool :=
  let n := nat_of_ascii c in ((32 <=? n) && (n <=? 126))%nat.

Fixpoint all_printable (s : string) : bool :=
  match s with
  | EmptyString => true
  | String c r => printable c && all_printable r
  end.

(** An action that, if it prints, prints printable characters only: no
    line break, no control character, nothing outside ASCII. *)
Definition one_clean_line (a : action) : bool :=
  match a with
  | Stdout line => all_printable line
  | _ => true
  end.

(** Induction on values, through the lists they hold. *)
Section PyvalInduction.
Variable P : pyval -> Prop.
Hypothesis P_none : P PNone.
Hypothesis P_bool : forall b, P (PBool b).
Hypothesis P_int : forall n, P (PInt n).
Hypothesis P_float : forall bits, P (PFloat bits).
Hypothesis P_str : forall s, P (PStr s).
Hypothesis P_list : forall xs, Forall P xs -> P (PList xs).
Hypothesis P_tuple : forall xs, Forall P xs -> P (PTuple xs).
Hypothesis P_dict :
  forall kvs, Forall (fun kv => P (snd kv)) kvs -> P (PDict kvs).
Hypothesis P_obj :
  forall cls attrs, Forall (fun kv => P (snd kv)) attrs -> P (PObj cls attrs).

Fixpoint pyval_induction (v : pyval) : P v :=
  match v with
  | PNone => P_none
  | PBool b => P_bool b
  | PInt n => P_int n
  | PFloat bits => P_float bits
  | PStr s => P_str s
  | PList xs =>
      P_list xs
        ((fix all (xs : list pyval) : Forall P xs :=
            match xs with
            | [] => Forall_nil P
            | x :: rest => Forall_cons x (pyval_induction x) (all rest)
            end) xs)
  | PTuple xs =>
      P_tuple xs
        ((fix all (xs : list pyval) : Forall P xs :=
            match xs with
            | [] => Forall_nil P
            | x :: rest => Forall_cons x (pyval_induction x) (all rest)
            end) xs)
  | PDict kvs =>
      P_dict kvs
        ((fix all (kvs : list (string * pyval))
            : Forall (fun kv => P (snd kv)) kvs :=
            match kvs with
            | [] => Forall_nil _
            | kv :: rest =>
                Forall_cons kv (pyval_induction (snd kv)) (all rest)
            end) kvs)
  | PObj cls attrs =>
      P_obj cls attrs
        ((fix all (kvs : list (string * pyval))
            : Forall (fun kv => P (snd kv)) kvs :=
            match kvs with
            | [] => Forall_nil _
            | kv :: rest =>
                Forall_cons kv (pyval_induction (snd kv)) (all rest)
            end) attrs)
  end.
End PyvalInduction.

(** ** The monad *)

Section MonadFacts.
Context {S : Type}.

Lemma bind_ok {A B} (m : M S A) (f : A -> M S B) s t s' a :
  m s = (t, s', Ok a) ->
  bind m f s = let '(t', s'', r) := f a s' in ((t ++ t')%list, s'', r).
Proof. intros H. unfold bind. rewrite H. reflexivity. Qed.

Lemma bind_raise {A B} (m : M S A) (f : A -> M S B) s t s' e :
  m s = (t, s', Raise e) -> bind m f s = (t, s', Raise e).
Proof. intros H. unfold bind. rewrite H. reflexivity. Qed.

(** A handler that returns a value turns any computation into one that
    returns. *)
Lemma try_except_ret_returns {A} (m : M S A) (f : exn -> A) s :
  exists t s' a, try_except m (fun e => ret (f e)) s = (t, s', Ok a).
Proof.
  unfold try_except, ret.
  destruct (m s) as [[t s'] [a | e]]; eauto.
Qed.

Lemma preserves_ret {A} (a : A) : preserves (@ret S A a).
Proof. intros s. reflexivity. Qed.

Lemma preserves_raise {A} e : preserves (@raise S A e).
Proof. intros s. reflexivity. Qed.

Lemma preserves_lift {A} (r : result A) : preserves (@lift S A r).
Proof. intros s. reflexivity. Qed.

Lemma preserves_perform {A} a (r : result A) : preserves (@perform S A a r).
Proof. intros s. reflexivity. Qed.

Lemma preserves_get : preserves (@get S).
Proof. intros s. reflexivity. Qed.

Lemma preserves_bind {A B} (m : M S A) (f : A -> M S B) :
  preserves m -> (forall a, preserves (f a)) -> preserves (bind m f).
Proof.
  intros Hm Hf s. unfold bind. specialize (Hm s).
  destruct (m s) as [[t s'] [a | e]]; simpl in *; subst; auto.
  specialize (Hf a s). destruct (f a s) as [[t' s''] r]. exact Hf.
Qed.

Lemma preserves_try_except {A} (m : M S A) h :
  preserves m -> (forall e, preserves (h e)) -> preserves (try_except m h).
Proof.
  intros Hm Hh s. unfold try_except. specialize (Hm s).
  destruct (m s) as [[t s'] [a | e]]; simpl in *; subst; auto.
  specialize (Hh e s). destruct (h e s) as [[t' s''] r]. exact Hh.
Qed.

Lemma performs_only_ret P {A} (a : A) : performs_only P (@ret S A a).
Proof. intros s. reflexivity. Qed.

Lemma performs_only_raise P {A} e : performs_only P (@raise S A e).
Proof. intros s. reflexivity. Qed.

Lemma performs_only_lift P {A} (r : result A) : performs_only P (@lift S A r).
Proof. intros s. reflexivity. Qed.

Lemma performs_only_get P : performs_only P (@get S).
Proof. intros s. reflexivity. Qed.

Lemma performs_only_put P s' : performs_only P (@put S s').
Proof. intros s. reflexivity. Qed.

Lemma performs_only_perform (P : action -> bool) {A} a (r : result A) :
  P a = true -> performs_only P (@perform S A a r).
Proof. intros H s. simpl. rewrite H. reflexivity. Qed.

Lemma performs_only_bind P {A B} (m : M S A) (f : A -> M S B) :
  performs_only P m -> (forall a, performs_only P (f a)) ->
  performs_only P (bind m f).
Proof.
  intros Hm Hf s. unfold bind. specialize (Hm s).
  destruct (m s) as [[t s'] [a | e]]; simpl in *; auto.
  specialize (Hf a s'). destruct (f a s') as [[t' s''] r]. simpl in *.
  rewrite forallb_app, Hm, Hf. reflexivity.
Qed.

Lemma performs_only_try_except P {A} (m : M S A) h :
  performs_only P m -> (forall e, performs_only P (h e)) ->
  performs_only P (try_except m h).
Proof.
  intros Hm Hh s. unfold try_except. specialize (Hm s).
  destruct (m s) as [[t s'] [a | e]]; simpl in *; auto.
  specialize (Hh e s'). destruct (h e s') as [[t' s''] r]. simpl in *.
  rewrite forallb_app, Hm, Hh. reflexivity.
Qed.
End MonadFacts.

Create HintDb preserve.
Create HintDb trace.
#[local] Hint Resolve preserves_ret preserves_raise preserves_lift
  preserves_perform preserves_get : preserve.
#[local] Hint Resolve performs_only_ret performs_only_raise performs_only_lift
  performs_only_get performs_only_put : trace.

(** Splits a structural goal about a monadic term along its binds,
    handlers and case distinctions. *)
Ltac monadic lem_bind lem_try db :=
  repeat first
    [ progress intros
    | apply lem_bind
    | apply lem_try
    | solve [auto with db]
    | match goal with
      | |- context [match ?x with _ => _ end] => destruct x
      | |- context [if ?b then _ else _] => destruct b
      end ].

(** ** Trimming *)

Lemma lstrip_head s c r : lstrip s = String c r -> is_space c = false.
Proof.
  induction s as [| a s IH]; simpl; [discriminate|].
  destruct (is_space a) eqn:Ha; [exact IH|].
  intros H. injection H as <- _. exact Ha.
Qed.

Lemma rstrip_head a s c r : rstrip (String a s) = String c r -> c = a.
Proof.
  simpl. destruct (rstrip s).
  - destruct (is_space a); [discriminate|]. intros H. injection H as <- _.
    reflexivity.
  - intros H. injection H as <- _. reflexivity.
Qed.

Lemma rstrip_last s c : last_char (rstrip s) = Some c -> is_space c = false.
Proof.
  induction s as [| a s IH]; simpl; [discriminate|].
  destruct (rstrip s) as [| b r'] eqn:Hr.
  - destruct (is_space a) eqn:Ha; simpl; [discriminate|].
    intros H. injection H as <-. exact Ha.
  - intros H. apply IH. exact H.
Qed.

(** The text of a response neither starts nor ends with white space. *)
Lemma py_strip_trimmed s :
  (forall c r, py_strip s = String c r -> is_space c = false)
  /\ (forall c, last_char (py_strip s) = Some c -> is_space c = false).
Proof.
  unfold py_strip. split.
  - intros c r H. destruct (lstrip s) as [| a s'] eqn:Hl; [discriminate|].
    apply rstrip_head in H. subst c. exact (lstrip_head _ _ _ Hl).
  - intros c. apply rstrip_last.
Qed.

Lemma rstrip_fixed s :
  (forall c, last_char s = Some c -> is_space c = false) -> rstrip s = s.
Proof.
  induction s as [| a s IH]; intros H; [reflexivity|].
  simpl. destruct s as [| b s'].
  - simpl. rewrite (H a eq_refl). reflexivity.
  - rewrite IH by (intros c Hc; apply H; exact Hc). reflexivity.
Qed.

Lemma py_strip_idempotent s : py_strip (py_strip s) = py_strip s.
Proof.
  destruct (py_strip_trimmed s) as [Hhead Hlast].
  unfold py_strip at 1.
  destruct (py_strip s) as [| c r] eqn:Hs; [reflexivity|].
  simpl lstrip. rewrite (Hhead c r eq_refl).
  apply rstrip_fixed. exact Hlast.
Qed.

(** ** Printing *)

Lemma json_dumps_success_response w text language confidence l c :
  json_dumps w language = Ok l ->
  json_dumps w confidence = Ok c ->
  json_dumps w (success_response (PStr text) language confidence)
  = Ok (success_line text l c).
Proof.
  intros Hl Hc. unfold success_response. cbn [json_dumps].
  rewrite Hl, Hc. reflexivity.
Qed.

Lemma print_status {S} w status message (s : S) :
  print_json w (status_message status message) s
  = ([Stdout (status_line status message)], s, Ok tt).
Proof. reflexivity. Qed.

Lemma print_error {S} w message traceback (s : S) :
  print_json w (error_response message traceback) s
  = ([Stdout (error_line message traceback)], s, Ok tt).
Proof. reflexivity. Qed.

Lemma print_json_run {S} w v (s : S) :
  print_json w v s
  = match json_dumps w v with
    | Ok line => ([Stdout line], s, Ok tt)
    | Raise e => ([], s, Raise e)
    end.
Proof.
  unfold print_json, bind, lift, perform.
  destruct (json_dumps w v); reflexivity.
Qed.

Lemma preserves_print_json {S} w v : preserves (@print_json S w v).
Proof. intros s. rewrite print_json_run. destruct (json_dumps w v); reflexivity. Qed.

Lemma performs_only_print_json {S} (P : action -> bool) w v :
  (forall line, P (Stdout line) = true) ->
  performs_only P (@print_json S w v).
Proof.
  intros HP s. rewrite print_json_run.
  destruct (json_dumps w v); simpl; [rewrite HP|]; reflexivity.
Qed.

#[local] Hint Resolve preserves_print_json : preserve.

(** ** Serving one request *)

Lemma preserves_load_raw_pcm w p : preserves (load_raw_pcm w p).
Proof.
  unfold load_raw_pcm.
  monadic (@preserves_bind (Daemon w)) (@preserves_try_except (Daemon w)) preserve.
Qed.
#[local] Hint Resolve preserves_load_raw_pcm : preserve.

Lemma preserves_engine_output w p : preserves (engine_output w p).
Proof.
  unfold engine_output.
  monadic (@preserves_bind (Daemon w)) (@preserves_try_except (Daemon w)) preserve.
Qed.
#[local] Hint Resolve preserves_engine_output : preserve.

Lemma preserves_transcribe_audio_body w p :
  preserves (transcribe_audio_body w p).
Proof.
  unfold transcribe_audio_body.
  monadic (@preserves_bind (Daemon w)) (@preserves_try_except (Daemon w)) preserve.
Qed.
#[local] Hint Resolve preserves_transcribe_audio_body : preserve.

Lemma preserves_transcribe_audio w p : preserves (transcribe_audio w p).
Proof.
  unfold transcribe_audio.
  monadic (@preserves_bind (Daemon w)) (@preserves_try_except (Daemon w)) preserve.
Qed.
#[local] Hint Resolve preserves_transcribe_audio : preserve.

Lemma preserves_process_request w r : preserves (process_request w r).
Proof.
  unfold process_request.
  monadic (@preserves_bind (Daemon w)) (@preserves_try_except (Daemon w)) preserve.
Qed.

(** [transcribe_audio] returns a response whatever happens inside it, and
    leaves the daemon untouched. *)
Lemma transcribe_audio_returns w p st :
  exists t response, transcribe_audio w p st = (t, st, Ok response).
Proof.
  destruct (try_except_ret_returns (transcribe_audio_body w p)
              (fun e => error_response (exn_msg e)
                          (format_exc w InTranscribeAudio e)) st)
    as (t & st' & a & H).
  pose proof (preserves_transcribe_audio w p st) as Hst.
  unfold transcribe_audio in *. rewrite H in Hst. simpl in Hst. subst st'.
  eauto.
Qed.

Lemma process_request_returns w r st :
  exists t response, process_request w r st = (t, st, Ok response).
Proof.
  pose proof (preserves_process_request w r st) as Hst.
  unfold process_request in *.
  match goal with
  | |- context [try_except ?m (fun e => ret (@?f e))] =>
      destruct (try_except_ret_returns m f st) as (t & st' & a & H)
  end.
  rewrite H in Hst. simpl in Hst. subst st'. eauto.
Qed.

(** ** One pass through the loop *)

Lemma py_strip_nonblank line :
  is_empty (py_strip line) = false -> is_empty line = false.
Proof. destruct line; [discriminate | reflexivity]. Qed.

Lemma py_eq_str_shutdown_not_ping c :
  py_eq_str c "shutdown" = true -> py_eq_str c "ping" = false.
Proof.
  destruct c; simpl; try discriminate.
  intros H. apply String.eqb_eq in H. subst. reflexivity.
Qed.

Lemma py_get_is_dict v key x :
  py_get v key = Ok x -> exists kvs, v = PDict kvs.
Proof.
  destruct v; simpl; try discriminate; eauto.
  destruct (assoc "get" attrs); discriminate.
Qed.

Ltac run_serve_line :=
  unfold serve_line, try_except, bind, lift, ret, raise;
  cbv beta iota zeta;
  repeat (progress (repeat match goal with
                           | H : _ = _ |- _ => rewrite H
                           end;
                    cbv beta iota zeta)).

Lemma serve_line_eof w (st : Daemon w) :
  serve_line w "" st = ([], st, Ok Break).
Proof. reflexivity. Qed.

Lemma serve_line_blank w line (st : Daemon w) :
  is_empty line = false ->
  is_empty (py_strip line) = true ->
  serve_line w line st = ([], st, Ok Continue).
Proof. intros H1 H2. run_serve_line. reflexivity. Qed.

Lemma serve_line_bad_json w line e (st : Daemon w) :
  is_empty (py_strip line) = false ->
  json_loads w (py_strip line) = Raise e ->
  is_JSONDecodeError e = true ->
  serve_line w line st
  = ([Stdout (status_line "error" ("Invalid JSON: " ++ exn_msg e))],
     st, Ok Continue).
Proof.
  intros H1 H2 H3. pose proof (py_strip_nonblank _ H1) as H0.
  run_serve_line. rewrite print_status. reflexivity.
Qed.

Lemma serve_line_lookup_fails w line v e (st : Daemon w) :
  is_empty (py_strip line) = false ->
  json_loads w (py_strip line) = Ok v ->
  py_get v "command" = Raise e ->
  serve_line w line st
  = ([Stdout (error_line ("Daemon error: " ++ exn_msg e)
                (format_exc w InRunDaemon e))],
     st, Ok Continue).
Proof.
  intros H1 H2 H3. pose proof (py_strip_nonblank _ H1) as H0.
  run_serve_line. rewrite print_error. reflexivity.
Qed.

Lemma serve_line_ping w line request command (st : Daemon w) :
  is_empty (py_strip line) = false ->
  json_loads w (py_strip line) = Ok request ->
  py_get request "command" = Ok command ->
  py_eq_str command "ping" = true ->
  serve_line w line st
  = ([Stdout (status_line "pong" "Daemon is alive")], st, Ok Continue).
Proof.
  intros H1 H2 H3 H4. pose proof (py_strip_nonblank _ H1) as H0.
  run_serve_line. rewrite print_status. reflexivity.
Qed.

Lemma serve_line_shutdown w line request command (st : Daemon w) :
  is_empty (py_strip line) = false ->
  json_loads w (py_strip line) = Ok request ->
  py_get request "command" = Ok command ->
  py_eq_str command "shutdown" = true ->
  serve_line w line st
  = ([Stdout (status_line "shutdown" "Shutting down gracefully")],
     mkDaemon (model st) (model_repo st) false, Ok Break).
Proof.
  intros H1 H2 H3 H4. pose proof (py_strip_nonblank _ H1) as H0.
  pose proof (py_eq_str_shutdown_not_ping _ H4) as H5.
  run_serve_line. reflexivity.
Qed.

Lemma serve_line_transcribe w line request t response (st : Daemon w) :
  reaches_transcription w line request ->
  process_request w request st = (t, st, Ok response) ->
  serve_line w line st
  = ((t ++ [Stdout (response_line w response)])%list, st, Ok Continue).
Proof.
  intros (H1 & H2 & command & H3 & H4 & H5) H6.
  pose proof (py_strip_nonblank _ H1) as H0.
  run_serve_line. rewrite print_json_run. unfold response_line.
  destruct (json_dumps w response) as [out | e].
  - rewrite app_nil_r. reflexivity.
  - rewrite print_error. rewrite app_nil_r. reflexivity.
Qed.

(** No exception leaves the body of the loop. *)
Lemma serve_line_returns w line (st : Daemon w) :
  exists t st' c, serve_line w line st = (t, st', Ok c).
Proof.
  unfold serve_line, try_except.
  match goal with
  | |- context [match ?m st with _ => _ end] =>
      destruct (m st) as [[t st'] [c | e]]
  end; eauto.
  unfold bind. rewrite print_error. simpl. eauto.
Qed.

(** ** The loop *)

Lemma main_loop_line w in_read line rest (st : Daemon w) :
  awaiting_input in_read st ->
  main_loop w in_read (EvLine line :: rest) st
  = match serve_line w line st with
    | (t, st', Ok Continue) =>
        let '(t', st'', r) := main_loop w false rest st' in
        ((t ++ t')%list, st'', r)
    | (t, st', Ok Break) => (t, st', Ok Broke)
    | (t, st', Raise e) => (t, st', Raise e)
    end.
Proof.
  intros Hready.
  assert (Hc : negb in_read && negb (running st) = false).
  { destruct Hready as [-> | ->]; [reflexivity | apply andb_false_r]. }
  cbn [main_loop]. unfold bind at 1. unfold get at 1. cbv beta iota.
  rewrite Hc. unfold bind at 1.
  destruct (serve_line w line st) as [[t st'] [[|] | e]]; try reflexivity.
  - simpl. destruct (main_loop w false rest st') as [[t' st''] r]. reflexivity.
  - simpl. rewrite app_nil_r. reflexivity.
Qed.

Lemma main_loop_continue w in_read line rest t (st st' : Daemon w) :
  awaiting_input in_read st ->
  serve_line w line st = (t, st', Ok Continue) ->
  main_loop w in_read (EvLine line :: rest) st
  = let '(t', st'', r) := main_loop w false rest st' in
    ((t ++ t')%list, st'', r).
Proof. intros Hready H. rewrite main_loop_line, H by assumption. reflexivity. Qed.

Lemma main_loop_break w in_read line rest t (st st' : Daemon w) :
  awaiting_input in_read st ->
  serve_line w line st = (t, st', Ok Break) ->
  main_loop w in_read (EvLine line :: rest) st = (t, st', Ok Broke).
Proof. intros Hready H. rewrite main_loop_line, H by assumption. reflexivity. Qed.

Lemma signal_handler_run w (st : Daemon w) :
  signal_handler w st
  = ([Stdout (status_line "shutdown" "Daemon shutting down")],
     mkDaemon (model st) (model_repo st) false, Ok tt).
Proof. reflexivity. Qed.

Lemma main_loop_signal w in_read rest (st : Daemon w) :
  awaiting_input in_read st ->
  main_loop w in_read (EvSignal :: rest) st
  = let '(t', st'', r) :=
      main_loop w true rest (mkDaemon (model st) (model_repo st) false) in
    (Stdout (status_line "shutdown" "Daemon shutting down") :: t', st'', r).
Proof.
  intros Hready.
  assert (Hc : negb in_read && negb (running st) = false).
  { destruct Hready as [-> | ->]; [reflexivity | apply andb_false_r]. }
  cbn [main_loop]. unfold bind at 1. unfold get at 1. cbv beta iota.
  rewrite Hc. unfold bind at 1. rewrite signal_handler_run.
  destruct (main_loop w true rest _) as [[t' st''] r]. reflexivity.
Qed.

(** With the running flag set, being inside [readline] or in front of the
    loop test makes no difference. *)
Lemma main_loop_running w in_read input (st : Daemon w) :
  running st = true ->
  main_loop w in_read input st = main_loop w false input st.
Proof.
  intros Hrun. destruct input as [| ev rest]; cbn [main_loop];
    unfold bind at 1; unfold get at 1; cbv beta iota;
    symmetry; unfold bind at 1; unfold get at 1; cbv beta iota;
    rewrite Hrun; simpl; rewrite andb_false_r; reflexivity.
Qed.

(** The loop never raises. *)
Lemma main_loop_returns w input : forall in_read (st : Daemon w),
  exists t st' e, main_loop w in_read input st = (t, st', Ok e).
Proof.
  induction input as [| ev rest IH]; intros in_read st.
  - cbn [main_loop]. unfold bind, get, ret.
    destruct (negb in_read && negb (running st)); simpl; eauto.
  - destruct (negb in_read && negb (running st)) eqn:Hc.
    + cbn [main_loop]. unfold bind at 1. unfold get at 1. cbv beta iota.
      rewrite Hc. simpl. eauto.
    + assert (Hready : awaiting_input in_read st).
      { unfold awaiting_input. destruct in_read; [auto|].
        simpl in Hc. destruct (running st); [auto | discriminate]. }
      destruct ev as [line | |].
      * rewrite main_loop_line by assumption.
        destruct (serve_line_returns w line st) as (t & st' & c & ->).
        destruct c; [|eauto].
        destruct (IH false st') as (t' & st'' & e & ->). eauto.
      * rewrite main_loop_signal by assumption.
        destruct (IH true (mkDaemon (model st) (model_repo st) false))
          as (t' & st'' & e & ->).
        eauto.
      * cbn [main_loop]. unfold bind at 1. unfold get at 1. cbv beta iota.
        rewrite Hc. simpl. eauto.
Qed.

(** Input that arrives after the loop has used up a first part is served
    from the state the first part left, starting inside [readline]. *)
Lemma main_loop_app w earlier later : forall in_read (st st' : Daemon w) t,
  main_loop w in_read earlier st = (t, st', Ok EndOfInput) ->
  main_loop w in_read (earlier ++ later) st
  = let '(t', st'', r) := main_loop w true later st' in
    ((t ++ t')%list, st'', r).
Proof.
  induction earlier as [| ev rest IH]; intros in_read st st' t H.
  - cbn [main_loop] in H. unfold bind, get, ret in H. cbv beta iota in H.
    destruct (negb in_read && negb (running st)) eqn:Hc; [discriminate|].
    injection H as Ht Hs. subst t st'.
    assert (Hready : awaiting_input in_read st).
    { unfold awaiting_input. destruct in_read; [auto|].
      simpl in Hc. destruct (running st); [auto | discriminate]. }
    simpl app.
    destruct Hready as [-> | Hrun]; [|rewrite (main_loop_running w true) by assumption;
                                       rewrite (main_loop_running w in_read) by assumption];
      destruct (main_loop w _ later st) as [[t' st''] r]; reflexivity.
  - destruct (negb in_read && negb (running st)) eqn:Hc.
    + cbn [main_loop] in H. unfold bind at 1 in H. unfold get at 1 in H.
      cbv beta iota in H. rewrite Hc in H. discriminate.
    + assert (Hready : awaiting_input in_read st).
      { unfold awaiting_input. destruct in_read; [auto|].
        simpl in Hc. destruct (running st); [auto | discriminate]. }
      rewrite <- app_comm_cons.
      destruct ev as [line | |].
      * rewrite main_loop_line in * by assumption.
        destruct (serve_line w line st) as [[t1 st1] [[|] | e]];
          try discriminate.
        destruct (main_loop w false rest st1) as [[t2 st2] r2] eqn:Hrest.
        injection H as <- <- ->.
        rewrite (IH _ _ _ _ Hrest).
        destruct (main_loop w true later st2) as [[t3 st3] r3].
        rewrite app_assoc. reflexivity.
      * rewrite main_loop_signal in * by assumption.
        destruct (main_loop w true rest _) as [[t2 st2] r2] eqn:Hrest.
        injection H as <- <- ->.
        rewrite (IH _ _ _ _ Hrest).
        destruct (main_loop w true later st2) as [[t3 st3] r3].
        reflexivity.
      * cbn [main_loop] in H. unfold bind at 1 in H. unfold get at 1 in H.
        cbv beta iota in H. rewrite Hc in H. discriminate.
Qed.

(** ** Start-up *)

(** The three ways [initialize_model] can go. *)
Lemma initialize_model_run w (st : Daemon w) :
  initialize_model w st
  = match from_pretrained w (model_repo st) true with
    | Ok m =>
        ([Stdout (status_line "loading" "Loading Parakeet v3 model...");
          LoadModel (model_repo st) true;
          Stdout (status_line "ready" "Model loaded offline successfully")],
         with_model st m, Ok true)
    | Raise offline_error =>
        match from_pretrained w (model_repo st) false with
        | Ok m =>
            ([Stdout (status_line "loading" "Loading Parakeet v3 model...");
              LoadModel (model_repo st) true;
              Stdout (status_line "warning"
                        ("Offline loading failed: " ++ exn_msg offline_error));
              Stdout (status_line "loading" "Falling back to online loading...");
              LoadModel (model_repo st) false;
              Stdout (status_line "ready" "Model loaded online successfully")],
             with_model st m, Ok true)
        | Raise e =>
            ([Stdout (status_line "loading" "Loading Parakeet v3 model...");
              LoadModel (model_repo st) true;
              Stdout (status_line "warning"
                        ("Offline loading failed: " ++ exn_msg offline_error));
              Stdout (status_line "loading" "Falling back to online loading...");
              LoadModel (model_repo st) false;
              Stdout (status_line "error"
                        ("Failed to load model: " ++ exn_msg e))],
             st, Ok false)
        end
    end.
Proof.
  unfold initialize_model, try_except, bind, perform, get, put, set_model, ret.
  cbv beta iota. rewrite print_status.
  destruct (from_pretrained w (model_repo st) true) as [m | e1].
  - reflexivity.
  - repeat (rewrite print_status; cbv beta iota).
    destruct (from_pretrained w (model_repo st) false) as [m | e2];
      reflexivity.
Qed.

(** [run_daemon] in terms of its two phases. *)
Lemma run_daemon_run w input (st : Daemon w) :
  run_daemon w input st
  = match initialize_model w st with
    | (t0, st1, Ok true) =>
        match main_loop w false input st1 with
        | (t, st2, Ok _) =>
            ((Stdout (status_line "starting" "Parakeet daemon starting...")
               :: t0
               ++ Stdout (status_line "listening" "Daemon ready for requests")
               :: t ++ [Stdout (status_line "stopped" "Daemon stopped")])%list,
             st2, Ok 0%Z)
        | (t, st2, Raise e) =>
            ((Stdout (status_line "starting" "Parakeet daemon starting...")
               :: t0
               ++ Stdout (status_line "listening" "Daemon ready for requests")
               :: t)%list,
             st2, Raise e)
        end
    | (t0, st1, Ok false) =>
        (Stdout (status_line "starting" "Parakeet daemon starting...") :: t0,
         st1, Ok 1%Z)
    | (t0, st1, Raise e) =>
        (Stdout (status_line "starting" "Parakeet daemon starting...") :: t0,
         st1, Raise e)
    end.
Proof.
  unfold run_daemon.
  rewrite (bind_ok _ _ _ _ _ _ (print_status w _ _ st)). cbv beta.
  destruct (initialize_model w st) as [[t0 st1] [[|] | e]] eqn:Hinit.
  - rewrite (bind_ok _ _ _ _ _ _ Hinit). cbv beta. cbn [negb]. cbv iota.
    rewrite (bind_ok _ _ _ _ _ _ (print_status w _ _ st1)). cbv beta.
    destruct (main_loop w false input st1) as [[t st2] [e | e]] eqn:Hloop.
    + rewrite (bind_ok _ _ _ _ _ _ Hloop). cbv beta.
      rewrite (bind_ok _ _ _ _ _ _ (print_status w _ _ st2)).
      unfold ret. simpl. rewrite ?app_nil_r. reflexivity.
    + rewrite (bind_raise _ _ _ _ _ _ Hloop). reflexivity.
  - rewrite (bind_ok _ _ _ _ _ _ Hinit). simpl. rewrite ?app_nil_r.
    reflexivity.
  - rewrite (bind_raise _ _ _ _ _ _ Hinit). reflexivity.
Qed.

(** ** What the loop does not do *)

Ltac no_load w :=
  monadic (@performs_only_bind (Daemon w) not_load)
          (@performs_only_try_except (Daemon w) not_load) ident:(trace).

#[local] Hint Extern 1 (performs_only _ (print_json _ _)) =>
  apply performs_only_print_json; reflexivity : trace.
#[local] Hint Extern 1 (performs_only _ (perform _ _)) =>
  apply performs_only_perform; reflexivity : trace.

Lemma load_raw_pcm_no_load w p : performs_only not_load (load_raw_pcm w p).
Proof. unfold load_raw_pcm. no_load w. Qed.
#[local] Hint Resolve load_raw_pcm_no_load : trace.

Lemma engine_output_no_load w p : performs_only not_load (engine_output w p).
Proof. unfold engine_output. no_load w. Qed.
#[local] Hint Resolve engine_output_no_load : trace.

Lemma transcribe_audio_no_load w p :
  performs_only not_load (transcribe_audio w p).
Proof. unfold transcribe_audio, transcribe_audio_body. no_load w. Qed.
#[local] Hint Resolve transcribe_audio_no_load : trace.

Lemma process_request_no_load w r :
  performs_only not_load (process_request w r).
Proof. unfold process_request. no_load w. Qed.
#[local] Hint Resolve process_request_no_load : trace.

Lemma serve_line_no_load w line : performs_only not_load (serve_line w line).
Proof.
  unfold serve_line, set_running.
  apply performs_only_try_except; [| no_load w].
  destruct (is_empty line); [no_load w|].
  cbv zeta. destruct (is_empty (py_strip line)); [no_load w|].
  destruct (json_loads w (py_strip line)) as [request | e]; no_load w.
Qed.

Lemma main_loop_no_load w input : forall in_read,
  performs_only not_load (main_loop w in_read input).
Proof.
  induction input as [| ev rest IH]; intros in_read; cbn [main_loop].
  - no_load w.
  - apply performs_only_bind; [auto with trace|]. intros st.
    destruct (negb in_read && negb (running st)); [auto with trace|].
    destruct ev as [line | |].
    + apply performs_only_bind; [apply serve_line_no_load|].
      intros [|]; [apply IH | auto with trace].
    + apply performs_only_bind; [|intros; apply IH].
      unfold signal_handler, set_running. no_load w.
    + auto with trace.
Qed.

Lemma no_load_filter t : forallb not_load t = true -> filter is_load t = [].
Proof.
  induction t as [| a t IH]; simpl; [reflexivity|].
  unfold not_load at 1. destruct (is_load a); simpl; [discriminate | exact IH].
Qed.

(** ** Properties of the protocol *)

(** C4.  Whatever the loader and the input do, a run starts with one
    offline load attempt.  If it succeeds the daemon starts listening and
    the loader is not called again.  If it fails, a warning is printed and
    the loader is called once more, with network access allowed; the
    calls of the loader in the whole run are then these two.  If the
    second attempt fails too the run consists of the start-up lines, the
    two attempts and the error line only: no listening line, no line of
    the input is read or answered, and the exit status is 1. *)
Theorem model_initialization_fallback :
  forall (w : World) (input : list event),
    let repo := model_repo (new_daemon w) in
    let starting :=
      Stdout (status_line "starting" "Parakeet daemon starting...") in
    let loading :=
      Stdout (status_line "loading" "Loading Parakeet v3 model...") in
    let listening :=
      Stdout (status_line "listening" "Daemon ready for requests") in
    let stopped := Stdout (status_line "stopped" "Daemon stopped") in
    match from_pretrained w repo true with
    | Ok _ =>
        (exists served,
            main w input
            = ([starting; loading; LoadModel repo true;
                Stdout (status_line "ready"
                          "Model loaded offline successfully");
                listening] ++ served ++ [stopped], 0%Z)%list)
        /\ filter is_load (fst (main w input)) = [LoadModel repo true]
    | Raise offline_error =>
        let warning :=
          Stdout (status_line "warning"
                    ("Offline loading failed: " ++ exn_msg offline_error)) in
        let falling_back :=
          Stdout (status_line "loading" "Falling back to online loading...") in
        filter is_load (fst (main w input))
        = [LoadModel repo true; LoadModel repo false]
        /\ match from_pretrained w repo false with
           | Ok _ =>
               exists served,
                 main w input
                 = ([starting; loading; LoadModel repo true; warning;
                     falling_back; LoadModel repo false;
                     Stdout (status_line "ready"
                               "Model loaded online successfully");
                     listening] ++ served ++ [stopped], 0%Z)%list
           | Raise e =>
               main w input
               = ([starting; loading; LoadModel repo true; warning;
                   falling_back; LoadModel repo false;
                   Stdout (status_line "error"
                             ("Failed to load model: " ++ exn_msg e))], 1%Z)
           end
    end.
Proof.
  intros w input repo starting loading listening stopped.
  unfold main. rewrite run_daemon_run, initialize_model_run.
  fold repo.
  destruct (from_pretrained w repo true) as [m | e1].
  - destruct (main_loop_returns w input false (with_model (new_daemon w) m))
      as (t & st' & e & Hloop).
    pose proof (main_loop_no_load w input false
                  (with_model (new_daemon w) m)) as Hno.
    rewrite Hloop in *. simpl in Hno. apply no_load_filter in Hno.
    split; [exists t; reflexivity|].
    simpl. rewrite filter_app, Hno. reflexivity.
  - destruct (from_pretrained w repo false) as [m | e2].
    + destruct (main_loop_returns w input false (with_model (new_daemon w) m))
        as (t & st' & e & Hloop).
      pose proof (main_loop_no_load w input false
                    (with_model (new_daemon w) m)) as Hno.
      rewrite Hloop in *. simpl in Hno. apply no_load_filter in Hno.
      split; [|exists t; reflexivity].
      simpl. rewrite filter_app, Hno. reflexivity.
    + split; reflexivity.
Qed.

(** C1.  A line that reaches the transcription path is answered by
    [process_request] with a response, never with an exception, and the
    daemon object is left as it was.  Whenever the work of
    [transcribe_audio] (resolving and reading the file, feature
    extraction, generation, normalization) raises an exception, that
    response is the error response carrying the exception's message and
    the traceback.  The loop prints one line for the response and goes on
    with the rest of the input. *)
Theorem transcription_failure_is_contained :
  forall (w : World) (st : Daemon w) (in_read : bool)
         (line : string) (request : pyval) (rest : list event),
    reaches_transcription w line request ->
    awaiting_input in_read st ->
    exists t response,
      process_request w request st = (t, st, Ok response)
      /\ (forall pcm_path t' st' e,
             py_getitem request "pcm_path" = Ok pcm_path ->
             transcribe_audio_body w pcm_path st = (t', st', Raise e) ->
             t = t' /\
             response = error_response (exn_msg e)
                          (format_exc w InTranscribeAudio e) /\
             response_line w response
             = error_line (exn_msg e) (format_exc w InTranscribeAudio e))
      /\ main_loop w in_read (EvLine line :: rest) st
         = let '(t', st', r) := main_loop w false rest st in
           ((t ++ Stdout (response_line w response) :: t')%list, st', r).
Proof.
  intros w st in_read line request rest Hreach Hready.
  destruct (process_request_returns w request st) as (t & response & Hpr).
  exists t, response. split; [exact Hpr|]. split.
  - intros pcm_path t' st' e Hitem Hbody.
    destruct Hreach as (_ & _ & command & Hget & _ & _).
    destruct (py_get_is_dict _ _ _ Hget) as (kvs & ->).
    simpl in Hitem.
    destruct (assoc "pcm_path" kvs) as [x |] eqn:Hassoc; [|discriminate].
    injection Hitem as ->.
    unfold process_request, try_except, bind, lift, ret in Hpr.
    simpl py_contains in Hpr. unfold has_key in Hpr. cbv beta iota in Hpr.
    rewrite Hassoc in Hpr. unfold py_getitem in Hpr. rewrite Hassoc in Hpr.
    cbv beta iota in Hpr. cbn [negb] in Hpr. cbv beta iota in Hpr.
    unfold transcribe_audio, try_except in Hpr. rewrite Hbody in Hpr.
    unfold ret in Hpr. simpl in Hpr. rewrite app_nil_r in Hpr.
    injection Hpr as Ht Hst Hresp. subst t st' response.
    repeat split; reflexivity.
  - rewrite (main_loop_continue w in_read line rest
               (t ++ [Stdout (response_line w response)]) st st Hready
               (serve_line_transcribe w line request t response st Hreach Hpr)).
    destruct (main_loop w false rest st) as [[t' st'] r].
    rewrite <- app_assoc. reflexivity.
Qed.

(** C5.  When the loop reads a line whose command is shutdown it prints
    the shutdown response and leaves; whatever follows on the input is
    never looked at.  In a whole run that reaches such a line, the output
    after the earlier responses is that one shutdown line followed by the
    stopped line, and the exit status is 0. *)
Theorem shutdown_command_stops_the_daemon :
  forall (w : World) (line : string) (request command : pyval)
         (earlier later : list event)
         (t0 t : list action) (st1 st : Daemon w),
    is_empty (py_strip line) = false ->
    json_loads w (py_strip line) = Ok request ->
    py_get request "command" = Ok command ->
    py_eq_str command "shutdown" = true ->
    initialize_model w (new_daemon w) = (t0, st1, Ok true) ->
    main_loop w false earlier st1 = (t, st, Ok EndOfInput) ->
    main_loop w true (EvLine line :: later) st
    = ([Stdout (status_line "shutdown" "Shutting down gracefully")],
       mkDaemon (model st) (model_repo st) false, Ok Broke)
    /\ main w (earlier ++ EvLine line :: later)
       = ((Stdout (status_line "starting" "Parakeet daemon starting...")
            :: t0
            ++ Stdout (status_line "listening" "Daemon ready for requests")
            :: t
            ++ [Stdout (status_line "shutdown" "Shutting down gracefully");
                Stdout (status_line "stopped" "Daemon stopped")])%list,
          0%Z).
Proof.
  intros w line request command earlier later t0 t st1 st
         Hline Hloads Hget Hcmd Hinit Hearlier.
  assert (Hstep :
    main_loop w true (EvLine line :: later) st
    = ([Stdout (status_line "shutdown" "Shutting down gracefully")],
       mkDaemon (model st) (model_repo st) false, Ok Broke)).
  { apply main_loop_break; [left; reflexivity|].
    eapply serve_line_shutdown; eassumption. }
  split; [exact Hstep|].
  unfold main. rewrite run_daemon_run, Hinit.
  rewrite (main_loop_app w earlier (EvLine line :: later) false st1 st t Hearlier).
  rewrite Hstep. cbv beta iota. rewrite <- app_assoc. reflexivity.
Qed.

(** C7.  A transcribe request without the [pcm_path] member is answered
    by [process_request] with the error response that names the missing
    member; no action at all is performed for it, so no file is touched.
    The loop prints that one line and goes on with the rest of the
    input. *)
Theorem missing_pcm_path_is_reported :
  forall (w : World) (st : Daemon w) (in_read : bool)
         (line : string) (request : pyval) (rest : list event),
    reaches_transcription w line request ->
    py_contains "pcm_path" request = Ok false ->
    awaiting_input in_read st ->
    process_request w request st
    = ([], st, Ok (status_message "error" "Missing 'pcm_path' in request"))
    /\ main_loop w in_read (EvLine line :: rest) st
       = let '(t', st', r) := main_loop w false rest st in
         (Stdout (status_line "error" "Missing 'pcm_path' in request") :: t',
          st', r).
Proof.
  intros w st in_read line request rest Hreach Hmissing Hready.
  assert (Hpr : process_request w request st
                = ([], st, Ok (status_message "error"
                                 "Missing 'pcm_path' in request"))).
  { unfold process_request, try_except, bind, lift, ret.
    rewrite Hmissing. reflexivity. }
  split; [exact Hpr|].
  rewrite (main_loop_continue w in_read line rest _ st st Hready
             (serve_line_transcribe w line request _ _ st Hreach Hpr)).
  destruct (main_loop w false rest st) as [[t' st'] r]. reflexivity.
Qed.

(** C8.  A line that is not blank and that [json.loads] rejects with a
    [JSONDecodeError] makes the loop print the error line whose message
    is [Invalid JSON:] followed by the decoder's message; the daemon
    object is unchanged and the loop goes on with the rest of the input.
    While the running flag is set, the rest is served exactly as it would
    have been without that line. *)
Theorem malformed_line_is_reported :
  forall (w : World) (st : Daemon w) (in_read : bool)
         (line : string) (e : exn) (rest : list event),
    awaiting_input in_read st ->
    is_empty (py_strip line) = false ->
    json_loads w (py_strip line) = Raise e ->
    is_JSONDecodeError e = true ->
    main_loop w in_read (EvLine line :: rest) st
    = (let '(t', st', r) := main_loop w false rest st in
       (Stdout (status_line "error" ("Invalid JSON: " ++ exn_msg e)) :: t',
        st', r))
    /\ (running st = true ->
        main_loop w in_read (EvLine line :: rest) st
        = let '(t', st', r) := main_loop w in_read rest st in
          (Stdout (status_line "error" ("Invalid JSON: " ++ exn_msg e)) :: t',
           st', r)).
Proof.
  intros w st in_read line e rest Hready Hline Hloads Hclass.
  assert (Hstep :
    main_loop w in_read (EvLine line :: rest) st
    = (let '(t', st', r) := main_loop w false rest st in
       (Stdout (status_line "error" ("Invalid JSON: " ++ exn_msg e)) :: t',
        st', r))).
  { rewrite (main_loop_continue w in_read line rest _ st st Hready
               (serve_line_bad_json w line e st Hline Hloads Hclass)).
    destruct (main_loop w false rest st) as [[t' st'] r]. reflexivity. }
  split; [exact Hstep|].
  intros Hrun. rewrite Hstep.
  rewrite (main_loop_running w in_read rest st Hrun). reflexivity.
Qed.

(** C10.  A line that decodes to a JSON value that is not an object does
    not stop the daemon: the lookup of the command fails with an
    [AttributeError], the handler of the loop prints one error line made
    from it, the daemon object is unchanged and the loop goes on with the
    rest of the input. *)
Theorem non_object_request_is_reported :
  forall (w : World) (st : Daemon w) (in_read : bool)
         (line : string) (v : pyval) (rest : list event),
    awaiting_input in_read st ->
    is_empty (py_strip line) = false ->
    json_loads w (py_strip line) = Ok v ->
    json_non_object v = true ->
    py_get v "command" = Raise (no_attribute v "get")
    /\ main_loop w in_read (EvLine line :: rest) st
       = let '(t', st', r) := main_loop w false rest st in
         (Stdout (error_line
                    ("Daemon error: " ++ exn_msg (no_attribute v "get"))
                    (format_exc w InRunDaemon (no_attribute v "get"))) :: t',
          st', r).
Proof.
  intros w st in_read line v rest Hready Hline Hloads Hkind.
  assert (Hget : py_get v "command" = Raise (no_attribute v "get")).
  { destruct v; try discriminate; reflexivity. }
  split; [exact Hget|].
  rewrite (main_loop_continue w in_read line rest _ st st Hready
             (serve_line_lookup_fails w line v _ st Hline Hloads Hget)).
  destruct (main_loop w false rest st) as [[t' st'] r]. reflexivity.
Qed.

(** ** Normalizing the engine's result *)

Lemma extract_fields_unrecognized w r :
  recognized r = false -> exists e, extract_fields w r = Raise e.
Proof.
  unfold recognized, accepted_by. intros H.
  repeat (apply orb_false_elim in H; destruct H as [H ?]).
  unfold extract_fields.
  destruct (is_nonempty_list r) as [[|] | e1]; try discriminate;
    cbn [rbind]; eauto.
  destruct (hasattr r "text"); try discriminate.
  destruct (has_nonempty_texts_attr r) as [[|] | e2]; try discriminate;
    cbn [rbind]; eauto.
  destruct (is_dict_with_text r) as [[|] | e3]; try discriminate;
    cbn [rbind]; eauto.
  destruct (is_dict_with_nonempty_texts r) as [[|] | e4]; try discriminate;
    cbn [rbind]; eauto.
Qed.

Lemma extract_fields_shaped w sh text language confidence :
  extract_fields w (shaped sh text language confidence)
  = Ok (PStr text,
        if reads_metadata sh then or_none language else PNone,
        if reads_metadata sh then or_none confidence else PNone).
Proof. destruct sh, language, confidence; reflexivity. Qed.

Lemma strip_text_string text :
  strip_text (PStr text) = Ok (PStr (py_strip text)).
Proof. destruct text; reflexivity. Qed.

Lemma strip_text_is_string v v' :
  strip_text v = Ok v' -> exists s, v' = PStr s.
Proof.
  unfold strip_text. destruct (truthy v).
  - destruct v; simpl; try discriminate.
    + intros H. injection H as <-. eauto.
    + destruct (assoc "strip" attrs); discriminate.
  - intros H. injection H as <-. eauto.
Qed.

(** A field the result does not carry comes out as [None]. *)
Lemma extract_fields_absent w r text language confidence :
  extract_fields w r = Ok (text, language, confidence) ->
  (supplies "language" r = false -> language = PNone)
  /\ (supplies "confidence" r = false -> confidence = PNone).
Proof.
  unfold extract_fields, attr_or.
  destruct r as [| b | n | bits | s | xs | xs | kvs | cls attrs];
    try (cbn; discriminate).
  - (* a list *)
    destruct xs as [| x xs]; [cbn; discriminate|].
    cbn [is_nonempty_list isinstance_list py_len rbind List.length].
    replace (0 <? Z.of_nat (S (List.length xs)))%Z with true
      by (symmetry; apply Z.ltb_lt; lia).
    cbn [py_first rbind supplies].
    destruct (hasattr x "text");
      [destruct (getattr x "text") as [tx | e]; [|discriminate]|];
      cbn [rbind];
      (destruct (hasattr x "language");
       [destruct (getattr x "language") as [lx | e]; [|discriminate]|]);
      cbn [rbind];
      (destruct (hasattr x "confidence");
       [destruct (getattr x "confidence") as [cx | e]; [|discriminate]|]);
      cbn [rbind]; intros H; injection H as <- <- <-;
      split; intros Hs; (discriminate || reflexivity).
  - (* a dictionary *)
    cbn [is_nonempty_list isinstance_list rbind hasattr
         has_nonempty_texts_attr is_dict_with_text isinstance_dict
         py_contains supplies].
    destruct (has_key "text" kvs) eqn:Htext.
    + unfold py_getitem, py_get, has_key.
      destruct (assoc "text" kvs); [|discriminate]. cbn [rbind].
      destruct (assoc "language" kvs), (assoc "confidence" kvs);
        cbn [rbind]; intros H; injection H as <- <- <-;
        split; intros Hs; (discriminate || reflexivity).
    + destruct (is_dict_with_nonempty_texts (PDict kvs)) as [[|] | e];
        cbn [rbind]; try discriminate.
      destruct (py_getitem (PDict kvs) "texts"); cbn [rbind];
        [|discriminate].
      destruct (py_first a); cbn [rbind]; [|discriminate].
      intros H; injection H as <- <- <-. auto.
  - (* an object *)
    cbn [is_nonempty_list isinstance_list rbind supplies].
    destruct (hasattr (PObj cls attrs) "text").
    + destruct (getattr (PObj cls attrs) "text") as [tx | e]; [|discriminate].
      cbn [rbind].
      (destruct (hasattr (PObj cls attrs) "language");
       [destruct (getattr (PObj cls attrs) "language") as [lx | e];
        [|discriminate]|]);
      cbn [rbind];
      (destruct (hasattr (PObj cls attrs) "confidence");
       [destruct (getattr (PObj cls attrs) "confidence") as [cx | e];
        [|discriminate]|]);
      cbn [rbind]; intros H; injection H as <- <- <-;
      split; intros Hs; (discriminate || reflexivity).
    + destruct (has_nonempty_texts_attr (PObj cls attrs)) as [[|] | e];
        cbn [rbind]; try discriminate.
      destruct (getattr (PObj cls attrs) "texts"); cbn [rbind];
        [|discriminate].
      destruct (py_first a); cbn [rbind]; [|discriminate].
      intros H; injection H as <- <- <-. auto.
Qed.

(** What [transcribe_audio] makes of the engine's output. *)
Lemma transcribe_audio_after_engine w pcm (st st' : Daemon w) t r :
  engine_output w pcm st = (t, st', Ok r) ->
  transcribe_audio w pcm st
  = match extract_fields w r with
    | Ok (text, language, confidence) =>
        match strip_text text with
        | Ok text' => (t, st', Ok (success_response text' language confidence))
        | Raise e =>
            (t, st', Ok (error_response (exn_msg e)
                           (format_exc w InTranscribeAudio e)))
        end
    | Raise e =>
        (t, st', Ok (error_response (exn_msg e)
                       (format_exc w InTranscribeAudio e)))
    end.
Proof.
  intros H. unfold transcribe_audio, transcribe_audio_body, try_except.
  rewrite (bind_ok _ _ _ _ _ _ H). cbv beta.
  unfold bind, lift, ret.
  destruct (extract_fields w r) as [[[text language] confidence] | e];
    cbv beta iota; [|rewrite !app_nil_r; reflexivity].
  destruct (strip_text text) as [text' | e]; cbv beta iota;
    rewrite !app_nil_r; reflexivity.
Qed.

Lemma transcribe_audio_engine_fails w pcm (st st' : Daemon w) t e :
  engine_output w pcm st = (t, st', Raise e) ->
  transcribe_audio w pcm st
  = (t, st', Ok (error_response (exn_msg e)
                   (format_exc w InTranscribeAudio e))).
Proof.
  intros H. unfold transcribe_audio, transcribe_audio_body, try_except.
  rewrite (bind_raise _ _ _ _ _ _ H). unfold ret. rewrite app_nil_r.
  reflexivity.
Qed.

(** C2.  When the engine's output passes none of the five tests of
    [transcribe_audio], extraction raises and the response is the error
    response made from that exception: its status is error, never
    success. *)
Theorem unrecognized_result_is_an_error :
  forall (w : World) (pcm_file_path : pyval) (st st' : Daemon w)
         (t : list action) (r : pyval),
    engine_output w pcm_file_path st = (t, st', Ok r) ->
    recognized r = false ->
    exists e,
      extract_fields w r = Raise e
      /\ transcribe_audio w pcm_file_path st
         = (t, st', Ok (error_response (exn_msg e)
                          (format_exc w InTranscribeAudio e)))
      /\ status_of (error_response (exn_msg e)
                      (format_exc w InTranscribeAudio e))
         = Some (PStr "error").
Proof.
  intros w pcm st st' t r Hengine Hshape.
  destruct (extract_fields_unrecognized w r Hshape) as (e & He).
  exists e. split; [exact He|]. split; [|reflexivity].
  rewrite (transcribe_audio_after_engine w pcm st st' t r Hengine), He.
  reflexivity.
Qed.

(** The five shapes, as the code treats them.  Each shape carrying a text
    is turned into a success response whose text is the trimmed text.  The
    language and the confidence of the result are carried over when the
    shape is a list of objects, a single object with a text or a mapping
    with a text (null where the result has none); for the two shapes that
    hold a collection of texts they are null whatever the result carries.
    So the five responses coincide when the result carries neither. *)
Lemma recognized_shapes_normalize :
  forall (w : World) (pcm_file_path : pyval) (st st' : Daemon w)
         (t : list action) (sh : shape) (text : string)
         (language confidence : option pyval),
    engine_output w pcm_file_path st
    = (t, st', Ok (shaped sh text language confidence)) ->
    transcribe_audio w pcm_file_path st
    = (t, st',
       Ok (success_response (PStr (py_strip text))
             (if reads_metadata sh then or_none language else PNone)
             (if reads_metadata sh then or_none confidence else PNone))).
Proof.
  intros w pcm st st' t sh text language confidence Hengine.
  rewrite (transcribe_audio_after_engine w pcm st st' t _ Hengine).
  rewrite extract_fields_shaped, strip_text_string. reflexivity.
Qed.

(** C9.  A success response of [transcribe_audio] is the dictionary with
    the four members status, text, language and confidence, in that
    order; a field the engine's result does not carry is [None] there,
    and with both [None] the line printed holds [null] for each. *)
Theorem success_response_keeps_both_fields :
  forall (w : World) (pcm_file_path : pyval) (st st' : Daemon w)
         (t : list action) (response : pyval),
    transcribe_audio w pcm_file_path st = (t, st', Ok response) ->
    status_of response = Some (PStr "success") ->
    exists r text language confidence,
      engine_output w pcm_file_path st = (t, st', Ok r)
      /\ response
         = PDict [("status", PStr "success"); ("text", PStr text);
                  ("language", language); ("confidence", confidence)]
      /\ (supplies "language" r = false -> language = PNone)
      /\ (supplies "confidence" r = false -> confidence = PNone)
      /\ json_dumps w (success_response (PStr text) PNone PNone)
         = Ok (success_line text "null" "null").
Proof.
  intros w pcm st st' t response Hrun Hstatus.
  destruct (engine_output w pcm st) as [[t1 st1] [r | e]] eqn:Hengine.
  - rewrite (transcribe_audio_after_engine w pcm st st1 t1 r Hengine) in Hrun.
    destruct (extract_fields w r) as [[[text language] confidence] | e]
      eqn:Hfields.
    + destruct (strip_text text) as [text' | e] eqn:Hstrip.
      * injection Hrun as <- <- <-.
        destruct (strip_text_is_string _ _ Hstrip) as (s & ->).
        destruct (extract_fields_absent w r _ _ _ Hfields) as [Hl Hc].
        exists r, s, language, confidence.
        repeat split; assumption || reflexivity.
      * injection Hrun as <- <- <-. discriminate.
    + injection Hrun as <- <- <-. discriminate.
  - rewrite (transcribe_audio_engine_fails w pcm st st1 t1 e Hengine) in Hrun.
    injection Hrun as <- <- <-. discriminate.
Qed.

(** ** Reading the PCM file *)

Lemma process_request_with_path w (st : Daemon w) request p :
  py_getitem request "pcm_path" = Ok (PStr p) ->
  process_request w request st = transcribe_audio w (PStr p) st.
Proof.
  intros Hitem.
  destruct request; try discriminate.
  pose proof Hitem as Hassoc. unfold py_getitem in Hassoc.
  destruct (assoc "pcm_path" kvs) as [x |] eqn:Hx; [|discriminate].
  injection Hassoc as ->.
  destruct (transcribe_audio_returns w (PStr p) st) as (t & response & Hrun).
  unfold process_request, try_except, bind, lift, ret.
  cbn [py_contains]. unfold has_key. rewrite Hx. cbv beta iota. cbn [negb].
  cbv beta iota. rewrite Hitem. cbv beta iota. rewrite Hrun.
  reflexivity.
Qed.

Lemma engine_output_load_fails w (st st' : Daemon w) m p t e :
  model st = Some m ->
  load_raw_pcm w p st = (t, st', Raise e) ->
  engine_output w p st = (t, st', Raise e).
Proof.
  intros Hm Hload. unfold engine_output, bind, get. cbv beta iota.
  rewrite Hm. cbv beta iota. rewrite Hload. reflexivity.
Qed.

(** The stages of [engine_output] after the file has been read: a failure
    of the conversion, of the feature extraction or of the generation is
    the exception [engine_output] raises, which [transcribe_audio] turns
    into its error response. *)
Lemma engine_output_stages w (st st' : Daemon w) m p t audio :
  model st = Some m ->
  load_raw_pcm w p st = (t, st', Ok audio) ->
  engine_output w p st
  = match mx_array w audio with
    | Raise e => ((t ++ [MxArray])%list, st', Raise e)
    | Ok audio_mlx =>
        match preprocessor_config w m with
        | Raise e => ((t ++ [MxArray])%list, st', Raise e)
        | Ok config =>
            match get_logmel w audio_mlx config with
            | Raise e => ((t ++ [MxArray; GetLogmel])%list, st', Raise e)
            | Ok mel =>
                ((t ++ [MxArray; GetLogmel; Generate])%list, st',
                 generate w m mel)
            end
        end
    end.
Proof.
  intros Hm Hload. unfold engine_output, bind, get, lift, perform.
  cbv beta iota. rewrite Hm. cbv beta iota. rewrite Hload. cbv beta iota.
  destruct (mx_array w audio) as [audio_mlx | e]; [|reflexivity].
  destruct (preprocessor_config w m) as [config | e]; [|reflexivity].
  destruct (get_logmel w audio_mlx config) as [mel | e]; reflexivity.
Qed.

Ltac run_load_raw_pcm :=
  unfold load_raw_pcm, try_except, bind, lift, perform, raise;
  cbv beta iota; cbn [Path py_str];
  repeat (progress (repeat match goal with
                           | H : _ = _ |- _ => rewrite H
                           end;
                    cbv beta iota; cbn [negb List.length Z.of_nat Z.eqb]));
  try reflexivity.

Lemma load_raw_pcm_not_found w (st : Daemon w) p :
  path_exists w p = Ok false ->
  load_raw_pcm w (PStr p) st
  = ([PathExists p], st,
     Raise (mkExn PlainException
              ("Error loading PCM data: PCM file not found: " ++ p))).
Proof. intros H. run_load_raw_pcm. Qed.

Lemma load_raw_pcm_unreadable w (st : Daemon w) p :
  path_exists w p = Ok true ->
  os_access w p = Ok false ->
  load_raw_pcm w (PStr p) st
  = ([PathExists p; OsAccess p], st,
     Raise (mkExn PlainException
              ("Error loading PCM data: Cannot read PCM file: " ++ p))).
Proof. intros H1 H2. run_load_raw_pcm. Qed.

Lemma load_raw_pcm_empty w (st : Daemon w) p :
  path_exists w p = Ok true ->
  os_access w p = Ok true ->
  np_fromfile w p = Ok [] ->
  load_raw_pcm w (PStr p) st
  = ([PathExists p; OsAccess p; NpFromfile p], st,
     Raise (mkExn PlainException "Error loading PCM data: PCM file is empty")).
Proof. intros H1 H2 H3. run_load_raw_pcm. Qed.

Lemma process_request_load_fails w (st : Daemon w) request p t e :
  asks_for st request p ->
  load_raw_pcm w (PStr p) st = (t, st, Raise e) ->
  process_request w request st
  = (t, st, Ok (error_response (exn_msg e) (format_exc w InTranscribeAudio e))).
Proof.
  intros [Hmodel Hitem] Hload.
  destruct (model st) as [m |] eqn:Hm; [|congruence].
  rewrite (process_request_with_path w st request p Hitem).
  apply transcribe_audio_engine_fails.
  eapply engine_output_load_fails; eassumption.
Qed.

(** C6.  A request naming a file that does not exist, one naming a file
    that cannot be read and one naming a file without samples are each
    answered with an error response, after the existence test alone, the
    existence and the access test, and the read; the three messages
    differ from one another whatever the paths are. *)
Theorem pcm_file_failures_are_distinct :
  forall (w1 w2 w3 : World)
         (st1 : Daemon w1) (st2 : Daemon w2) (st3 : Daemon w3)
         (request1 request2 request3 : pyval) (p1 p2 p3 : string),
    asks_for st1 request1 p1 ->
    asks_for st2 request2 p2 ->
    asks_for st3 request3 p3 ->
    path_exists w1 p1 = Ok false ->
    path_exists w2 p2 = Ok true ->
    os_access w2 p2 = Ok false ->
    path_exists w3 p3 = Ok true ->
    os_access w3 p3 = Ok true ->
    np_fromfile w3 p3 = Ok [] ->
    let not_found := "Error loading PCM data: PCM file not found: " ++ p1 in
    let unreadable := "Error loading PCM data: Cannot read PCM file: " ++ p2 in
    let empty := "Error loading PCM data: PCM file is empty" in
    process_request w1 request1 st1
    = ([PathExists p1], st1,
       Ok (error_response not_found
             (format_exc w1 InTranscribeAudio
                (mkExn PlainException not_found))))
    /\ process_request w2 request2 st2
       = ([PathExists p2; OsAccess p2], st2,
          Ok (error_response unreadable
                (format_exc w2 InTranscribeAudio
                   (mkExn PlainException unreadable))))
    /\ process_request w3 request3 st3
       = ([PathExists p3; OsAccess p3; NpFromfile p3], st3,
          Ok (error_response empty
                (format_exc w3 InTranscribeAudio
                   (mkExn PlainException empty))))
    /\ not_found <> unreadable
    /\ not_found <> empty
    /\ unreadable <> empty.
Proof.
  intros w1 w2 w3 st1 st2 st3 request1 request2 request3 p1 p2 p3
         Hask1 Hask2 Hask3 Hmissing Hexists2 Hdenied Hexists3 Hallowed Hnone
         not_found unreadable empty.
  split.
  { rewrite (process_request_load_fails w1 st1 request1 p1 _ _ Hask1
               (load_raw_pcm_not_found w1 st1 p1 Hmissing)).
    reflexivity. }
  split.
  { rewrite (process_request_load_fails w2 st2 request2 p2 _ _ Hask2
               (load_raw_pcm_unreadable w2 st2 p2 Hexists2 Hdenied)).
    reflexivity. }
  split.
  { rewrite (process_request_load_fails w3 st3 request3 p3 _ _ Hask3
               (load_raw_pcm_empty w3 st3 p3 Hexists3 Hallowed Hnone)).
    reflexivity. }
  subst not_found unreadable empty. simpl.
  repeat split; discriminate.
Qed.

(** ** Examples *)

(** A whole session: a ping, a blank line, a malformed line, a number, a
    request without a path, a transcription, a missing file, and a
    shutdown followed by a line that is never read. *)
Example sample_session :
  main sample_world
    [EvLine ping_line; EvLine "   "; EvLine "{oops"; EvLine "42";
     EvLine (request_line [("id", "7")]);
     EvLine (transcribe_line "/tmp/audio.pcm");
     EvLine (transcribe_line "/nonexistent");
     EvLine shutdown_line; EvLine ping_line]
  = ([Stdout (status_line "starting" "Parakeet daemon starting...");
      Stdout (status_line "loading" "Loading Parakeet v3 model...");
      LoadModel "mlx-community/parakeet-tdt-0.6b-v3" true;
      Stdout (status_line "ready" "Model loaded offline successfully");
      Stdout (status_line "listening" "Daemon ready for requests");
      Stdout (status_line "pong" "Daemon is alive");
      Stdout (status_line "error"
                "Invalid JSON: Expecting value: line 1 column 1 (char 0)");
      Stdout (error_line "Daemon error: 'int' object has no attribute 'get'"
                "Traceback (most recent call last): 'int' object has no attribute 'get'");
      Stdout (status_line "error" "Missing 'pcm_path' in request");
      PathExists "/tmp/audio.pcm"; OsAccess "/tmp/audio.pcm";
      NpFromfile "/tmp/audio.pcm"; MxArray; GetLogmel; Generate;
      Stdout (success_line "hello world" "null" "null");
      PathExists "/nonexistent";
      Stdout (error_line
                "Error loading PCM data: PCM file not found: /nonexistent"
                "Traceback (most recent call last): Error loading PCM data: PCM file not found: /nonexistent");
      Stdout (status_line "shutdown" "Shutting down gracefully");
      Stdout (status_line "stopped" "Daemon stopped")],
     0%Z).
Proof. vm_compute. reflexivity. Qed.

(** A termination signal that arrives while the daemon waits: the handler
    prints its line, the line being read is still served, then the loop
    ends. *)
Example signal_session :
  main sample_world [EvSignal; EvLine ping_line; EvLine ping_line]
  = ([Stdout (status_line "starting" "Parakeet daemon starting...");
      Stdout (status_line "loading" "Loading Parakeet v3 model...");
      LoadModel "mlx-community/parakeet-tdt-0.6b-v3" true;
      Stdout (status_line "ready" "Model loaded offline successfully");
      Stdout (status_line "listening" "Daemon ready for requests");
      Stdout (status_line "shutdown" "Daemon shutting down");
      Stdout (status_line "pong" "Daemon is alive");
      Stdout (status_line "stopped" "Daemon stopped")],
     0%Z).
Proof. vm_compute. reflexivity. Qed.

(** The model is not cached: the offline attempt fails, the second one
    succeeds, and the daemon serves. *)
Example fallback_session :
  main (stub_world loads_online_only PNone) [EvLine ping_line]
  = ([Stdout (status_line "starting" "Parakeet daemon starting...");
      Stdout (status_line "loading" "Loading Parakeet v3 model...");
      LoadModel "mlx-community/parakeet-tdt-0.6b-v3" true;
      Stdout (status_line "warning"
                "Offline loading failed: no cached snapshot");
      Stdout (status_line "loading" "Falling back to online loading...");
      LoadModel "mlx-community/parakeet-tdt-0.6b-v3" false;
      Stdout (status_line "ready" "Model loaded online successfully");
      Stdout (status_line "listening" "Daemon ready for requests");
      Stdout (status_line "pong" "Daemon is alive");
      Stdout (status_line "stopped" "Daemon stopped")],
     0%Z).
Proof. vm_compute. reflexivity. Qed.

(** Both attempts fail: the ping is never answered. *)
Example failed_start :
  main (stub_world never_loads PNone) [EvLine ping_line]
  = ([Stdout (status_line "starting" "Parakeet daemon starting...");
      Stdout (status_line "loading" "Loading Parakeet v3 model...");
      LoadModel "mlx-community/parakeet-tdt-0.6b-v3" true;
      Stdout (status_line "warning"
                "Offline loading failed: model files are missing");
      Stdout (status_line "loading" "Falling back to online loading...");
      LoadModel "mlx-community/parakeet-tdt-0.6b-v3" false;
      Stdout (status_line "error"
                "Failed to load model: model files are missing")],
     1%Z).
Proof. vm_compute. reflexivity. Qed.

(** What the code makes of the same text, language and confidence in the
    five shapes. *)
Lemma shaped_responses (sh : shape) :
  snd (transcribe_audio (shaped_world sh) (PStr "/tmp/audio.pcm")
         (shaped_daemon sh))
  = Ok (success_response (PStr "hello")
          (if reads_metadata sh then PStr "en" else PNone)
          (if reads_metadata sh then PFloat 0x3FEE666666666666 else PNone)).
Proof.
  rewrite (recognized_shapes_normalize (shaped_world sh)
             (PStr "/tmp/audio.pcm") (shaped_daemon sh) (shaped_daemon sh)
             audio_actions sh " hello" sample_language sample_confidence).
  - destruct sh; reflexivity.
  - destruct sh; reflexivity.
Qed.

(** C3.  The stub engine returns the text [hello] with the language [en]
    and the confidence 0.95.  As a single object with a text the response
    carries all three; as an object with a collection of texts, or as a
    mapping with such a collection, the response has the text and [None]
    for the language and for the confidence: the responses are not the
    same record. *)
Theorem texts_shapes_lose_language_and_confidence :
  snd (transcribe_audio (shaped_world SingleObject) (PStr "/tmp/audio.pcm")
         (shaped_daemon SingleObject))
  = Ok (success_response (PStr "hello") (PStr "en")
          (PFloat 0x3FEE666666666666))
  /\ snd (transcribe_audio (shaped_world ObjectWithTexts)
            (PStr "/tmp/audio.pcm") (shaped_daemon ObjectWithTexts))
     = Ok (success_response (PStr "hello") PNone PNone)
  /\ snd (transcribe_audio (shaped_world MappingWithTexts)
            (PStr "/tmp/audio.pcm") (shaped_daemon MappingWithTexts))
     = Ok (success_response (PStr "hello") PNone PNone)
  /\ snd (transcribe_audio (shaped_world SingleObject)
            (PStr "/tmp/audio.pcm") (shaped_daemon SingleObject))
     <> snd (transcribe_audio (shaped_world ObjectWithTexts)
               (PStr "/tmp/audio.pcm") (shaped_daemon ObjectWithTexts)).
Proof.
  rewrite !shaped_responses. simpl.
  repeat split; discriminate.
Qed.

Lemma transcription_failure_is_contained_witness :
  exists t response,
    process_request odd_world
      (request_of [("pcm_path", "/nonexistent")]) odd_daemon
    = (t, odd_daemon, Ok response)
    /\ main_loop odd_world false
         [EvLine (transcribe_line "/nonexistent"); EvLine ping_line] odd_daemon
       = ((t ++ [Stdout (response_line odd_world response);
                 Stdout (status_line "pong" "Daemon is alive")])%list,
          odd_daemon, Ok EndOfInput).
Proof.
  destruct (transcription_failure_is_contained odd_world odd_daemon false
              (transcribe_line "/nonexistent")
              (request_of [("pcm_path", "/nonexistent")])
              [EvLine ping_line])
    as (t & response & Hreturns & _ & Hloop).
  - split; [reflexivity|]. split; [reflexivity|].
    exists PNone. repeat split; reflexivity.
  - right. reflexivity.
  - exists t, response. split; [exact Hreturns | exact Hloop].
Defined.

Lemma unrecognized_result_is_an_error_witness :
  exists e,
    extract_fields odd_world (PInt 3) = Raise e
    /\ transcribe_audio odd_world (PStr "/tmp/audio.pcm") odd_daemon
       = (audio_actions, odd_daemon,
          Ok (error_response (exn_msg e)
                (format_exc odd_world InTranscribeAudio e)))
    /\ status_of (error_response (exn_msg e)
                    (format_exc odd_world InTranscribeAudio e))
       = Some (PStr "error").
Proof.
  apply (unrecognized_result_is_an_error odd_world (PStr "/tmp/audio.pcm")
           odd_daemon odd_daemon audio_actions (PInt 3));
    reflexivity.
Defined.

Lemma shutdown_command_stops_the_daemon_witness :
  main_loop sample_world true [EvLine shutdown_line; EvLine ping_line]
    sample_daemon
  = ([Stdout (status_line "shutdown" "Shutting down gracefully")],
     mkDaemon (model sample_daemon) (model_repo sample_daemon) false,
     Ok Broke)
  /\ main sample_world
       ([EvLine ping_line] ++ EvLine shutdown_line :: [EvLine ping_line])
     = ((Stdout (status_line "starting" "Parakeet daemon starting...")
          :: [Stdout (status_line "loading" "Loading Parakeet v3 model...");
              LoadModel "mlx-community/parakeet-tdt-0.6b-v3" true;
              Stdout (status_line "ready" "Model loaded offline successfully")]
          ++ Stdout (status_line "listening" "Daemon ready for requests")
          :: [Stdout (status_line "pong" "Daemon is alive")]
          ++ [Stdout (status_line "shutdown" "Shutting down gracefully");
              Stdout (status_line "stopped" "Daemon stopped")])%list,
        0%Z).
Proof.
  apply (shutdown_command_stops_the_daemon sample_world shutdown_line
           (request_of [("command", "shutdown")]) (PStr "shutdown")
           [EvLine ping_line] [EvLine ping_line]
           [Stdout (status_line "loading" "Loading Parakeet v3 model...");
            LoadModel "mlx-community/parakeet-tdt-0.6b-v3" true;
            Stdout (status_line "ready" "Model loaded offline successfully")]
           [Stdout (status_line "pong" "Daemon is alive")]
           sample_daemon sample_daemon);
    reflexivity.
Defined.

Lemma pcm_file_failures_are_distinct_witness :
  process_request odd_world (request_of [("pcm_path", "/nonexistent")])
    odd_daemon
  = ([PathExists "/nonexistent"], odd_daemon,
     Ok (error_response
           "Error loading PCM data: PCM file not found: /nonexistent"
           "Traceback (most recent call last): Error loading PCM data: PCM file not found: /nonexistent"))
  /\ process_request odd_world (request_of [("pcm_path", "/tmp/secret.pcm")])
       odd_daemon
     = ([PathExists "/tmp/secret.pcm"; OsAccess "/tmp/secret.pcm"], odd_daemon,
        Ok (error_response
              "Error loading PCM data: Cannot read PCM file: /tmp/secret.pcm"
              "Traceback (most recent call last): Error loading PCM data: Cannot read PCM file: /tmp/secret.pcm"))
  /\ process_request odd_world (request_of [("pcm_path", "/tmp/empty.pcm")])
       odd_daemon
     = ([PathExists "/tmp/empty.pcm"; OsAccess "/tmp/empty.pcm";
         NpFromfile "/tmp/empty.pcm"], odd_daemon,
        Ok (error_response "Error loading PCM data: PCM file is empty"
              "Traceback (most recent call last): Error loading PCM data: PCM file is empty"))
  /\ "Error loading PCM data: PCM file not found: /nonexistent"
     <> "Error loading PCM data: Cannot read PCM file: /tmp/secret.pcm"
  /\ "Error loading PCM data: PCM file not found: /nonexistent"
     <> "Error loading PCM data: PCM file is empty"
  /\ "Error loading PCM data: Cannot read PCM file: /tmp/secret.pcm"
     <> "Error loading PCM data: PCM file is empty".
Proof.
  apply (pcm_file_failures_are_distinct odd_world odd_world odd_world
           odd_daemon odd_daemon odd_daemon
           (request_of [("pcm_path", "/nonexistent")])
           (request_of [("pcm_path", "/tmp/secret.pcm")])
           (request_of [("pcm_path", "/tmp/empty.pcm")])
           "/nonexistent" "/tmp/secret.pcm" "/tmp/empty.pcm");
    try reflexivity;
    (split; [discriminate | reflexivity]).
Defined.

Lemma missing_pcm_path_is_reported_witness :
  process_request sample_world (request_of [("id", "7")]) sample_daemon
  = ([], sample_daemon,
     Ok (status_message "error" "Missing 'pcm_path' in request"))
  /\ main_loop sample_world false
       [EvLine (request_line [("id", "7")]); EvLine ping_line] sample_daemon
     = ([Stdout (status_line "error" "Missing 'pcm_path' in request");
         Stdout (status_line "pong" "Daemon is alive")],
        sample_daemon, Ok EndOfInput).
Proof.
  apply (missing_pcm_path_is_reported sample_world sample_daemon false
           (request_line [("id", "7")]) (request_of [("id", "7")])
           [EvLine ping_line]).
  - split; [reflexivity|]. split; [reflexivity|].
    exists PNone. repeat split; reflexivity.
  - reflexivity.
  - right. reflexivity.
Defined.

Lemma malformed_line_is_reported_witness :
  main_loop sample_world false [EvLine "{oops"; EvLine ping_line] sample_daemon
  = ([Stdout (status_line "error"
                "Invalid JSON: Expecting value: line 1 column 1 (char 0)");
      Stdout (status_line "pong" "Daemon is alive")],
     sample_daemon, Ok EndOfInput).
Proof.
  refine (proj1 (malformed_line_is_reported sample_world sample_daemon false
                   "{oops"
                   (mkExn JSONDecodeError
                      "Expecting value: line 1 column 1 (char 0)")
                   [EvLine ping_line] _ _ _ _)).
  - right. reflexivity.
  - reflexivity.
  - reflexivity.
  - reflexivity.
Defined.

Lemma success_response_keeps_both_fields_witness :
  exists r text language confidence,
    engine_output sample_world (PStr "/tmp/audio.pcm") sample_daemon
    = (audio_actions, sample_daemon, Ok r)
    /\ success_response (PStr "hello world") PNone PNone
       = PDict [("status", PStr "success"); ("text", PStr text);
                ("language", language); ("confidence", confidence)]
    /\ (supplies "language" r = false -> language = PNone)
    /\ (supplies "confidence" r = false -> confidence = PNone)
    /\ json_dumps sample_world (success_response (PStr text) PNone PNone)
       = Ok (success_line text "null" "null").
Proof.
  apply (success_response_keeps_both_fields sample_world
           (PStr "/tmp/audio.pcm") sample_daemon sample_daemon audio_actions
           (success_response (PStr "hello world") PNone PNone));
    reflexivity.
Defined.

Lemma non_object_request_is_reported_witness :
  py_get (PInt 42) "command" = Raise (no_attribute (PInt 42) "get")
  /\ main_loop sample_world false [EvLine "42"; EvLine ping_line] sample_daemon
     = ([Stdout (error_line
                   "Daemon error: 'int' object has no attribute 'get'"
                   "Traceback (most recent call last): 'int' object has no attribute 'get'");
         Stdout (status_line "pong" "Daemon is alive")],
        sample_daemon, Ok EndOfInput).
Proof.
  apply (non_object_request_is_reported sample_world sample_daemon false "42"
           (PInt 42) [EvLine ping_line]).
  - right. reflexivity.
  - reflexivity.
  - reflexivity.
  - reflexivity.
Defined.

(** ** Further properties: the daemon object *)

Section Steadily.
Context {S : Type} (R : S -> S -> Prop).
Hypothesis R_refl : forall s, R s s.
Hypothesis R_trans : forall s1 s2 s3, R s1 s2 -> R s2 s3 -> R s1 s3.

Lemma steadily_preserves {A} (m : M S A) : preserves m -> steadily R m.
Proof. intros H s. rewrite H. apply R_refl. Qed.

Lemma steadily_bind {A B} (m : M S A) (f : A -> M S B) :
  steadily R m -> (forall a, steadily R (f a)) -> steadily R (bind m f).
Proof.
  intros Hm Hf s. unfold bind. specialize (Hm s).
  destruct (m s) as [[t s'] [a | e]]; simpl in *; auto.
  specialize (Hf a s'). destruct (f a s') as [[t' s''] r]. simpl in *.
  eapply R_trans; eassumption.
Qed.

Lemma steadily_try_except {A} (m : M S A) h :
  steadily R m -> (forall e, steadily R (h e)) -> steadily R (try_except m h).
Proof.
  intros Hm Hh s. unfold try_except. specialize (Hm s).
  destruct (m s) as [[t s'] [a | e]]; simpl in *; auto.
  specialize (Hh e s'). destruct (h e s') as [[t' s''] r]. simpl in *.
  eapply R_trans; eassumption.
Qed.
End Steadily.

Lemma keeps_model_refl w (st : Daemon w) : keeps_model st st.
Proof. repeat split; auto. Qed.

Lemma keeps_model_trans w (s1 s2 s3 : Daemon w) :
  keeps_model s1 s2 -> keeps_model s2 s3 -> keeps_model s1 s3.
Proof.
  intros (Hm1 & Hr1 & Hf1) (Hm2 & Hr2 & Hf2).
  repeat split; try congruence. auto.
Qed.

Lemma steadily_set_running_false w :
  steadily keeps_model (@set_running w false).
Proof. intros st. cbn. repeat split; auto. Qed.

Create HintDb steady.
#[local] Hint Resolve steadily_set_running_false : steady.
#[local] Hint Extern 2 (steadily keeps_model _) =>
  apply (steadily_preserves keeps_model (@keeps_model_refl _));
  auto with preserve : steady.
#[local] Hint Resolve preserves_process_request : preserve.

Ltac steady w :=
  repeat first
    [ progress intros
    | solve [auto with steady]
    | apply (@steadily_bind (Daemon w) keeps_model (@keeps_model_trans w))
    | apply (@steadily_try_except (Daemon w) keeps_model
               (@keeps_model_trans w))
    | match goal with
      | |- context [match ?x with _ => _ end] => destruct x
      | |- context [if ?b then _ else _] => destruct b
      end ].

Lemma steadily_serve_line w line : steadily keeps_model (serve_line w line).
Proof.
  unfold serve_line.
  apply (steadily_try_except keeps_model (@keeps_model_trans w)); [| steady w].
  destruct (is_empty line); [steady w|].
  cbv zeta. destruct (is_empty (py_strip line)); [steady w|].
  destruct (json_loads w (py_strip line)) as [request | e]; steady w.
Qed.

Lemma steadily_signal_handler w : steadily keeps_model (signal_handler w).
Proof. unfold signal_handler. steady w. Qed.

Lemma steadily_main_loop w input : forall in_read,
  steadily keeps_model (main_loop w in_read input).
Proof.
  induction input as [| ev rest IH]; intros in_read; cbn [main_loop].
  - steady w.
  - apply (steadily_bind keeps_model (@keeps_model_trans w));
      [auto with steady|].
    intros st. destruct (negb in_read && negb (running st));
      [auto with steady|].
    destruct ev as [line | |].
    + apply (steadily_bind keeps_model (@keeps_model_trans w));
        [apply steadily_serve_line|].
      intros [|]; [apply IH | auto with steady].
    + apply (steadily_bind keeps_model (@keeps_model_trans w));
        [apply steadily_signal_handler | intros; apply IH].
    + auto with steady.
Qed.

(** X1.  Whatever the input, the loop leaves the model and the repository
    name of the daemon as they were, and never sets a cleared running
    flag again. *)
Theorem main_loop_keeps_the_model :
  forall (w : World) (in_read : bool) (input : list event)
         (st st' : Daemon w) (t : list action) (r : result loop_end),
    main_loop w in_read input st = (t, st', r) ->
    model st' = model st
    /\ model_repo st' = model_repo st
    /\ (running st = false -> running st' = false).
Proof.
  intros w in_read input st st' t r Hrun.
  pose proof (steadily_main_loop w input in_read st) as H.
  rewrite Hrun in H. exact H.
Qed.

Lemma main_loop_keeps_the_model_witness :
  model (stopped sample_daemon) = model sample_daemon
  /\ model_repo (stopped sample_daemon) = model_repo sample_daemon
  /\ (running sample_daemon = false -> running (stopped sample_daemon) = false).
Proof.
  apply (main_loop_keeps_the_model sample_world false
           [EvLine ping_line; EvLine shutdown_line; EvLine ping_line]
           sample_daemon (stopped sample_daemon)
           [Stdout (status_line "pong" "Daemon is alive");
            Stdout (status_line "shutdown" "Shutting down gracefully")]
           (Ok Broke)).
  reflexivity.
Defined.

(** ** Further properties: the dispatcher *)

(** X2.  While the running flag is set, any number of ping lines in a row
    are answered by as many pong lines and nothing else happens: no file
    is touched, the engine is not called, the daemon object is unchanged,
    whether or not it holds a model and whatever else the request
    carries. *)
Theorem pings_are_answered :
  forall (w : World) (st : Daemon w) (in_read : bool)
         (line : string) (request command : pyval)
         (n : nat) (rest : list event),
    running st = true ->
    is_empty (py_strip line) = false ->
    json_loads w (py_strip line) = Ok request ->
    py_get request "command" = Ok command ->
    py_eq_str command "ping" = true ->
    main_loop w in_read (repeat (EvLine line) n ++ rest) st
    = let '(t', st', r) := main_loop w in_read rest st in
      ((repeat (Stdout (status_line "pong" "Daemon is alive")) n ++ t')%list,
       st', r).
Proof.
  intros w st in_read line request command n rest Hrun Hline Hloads Hget Hping.
  induction n as [| n IH].
  - simpl. destruct (main_loop w in_read rest st) as [[t' st'] r]. reflexivity.
  - cbn [repeat app].
    rewrite (main_loop_continue w in_read line _ _ st st (or_intror Hrun)
               (serve_line_ping w line request command st
                  Hline Hloads Hget Hping)).
    rewrite <- (main_loop_running w in_read _ st Hrun), IH.
    destruct (main_loop w in_read rest st) as [[t' st'] r]. reflexivity.
Qed.

Lemma pings_are_answered_witness :
  main_loop sample_world false
    (repeat (EvLine ping_line) 3 ++ [EvLine shutdown_line])
    (new_daemon sample_world)
  = ((repeat (Stdout (status_line "pong" "Daemon is alive")) 3
      ++ [Stdout (status_line "shutdown" "Shutting down gracefully")])%list,
     stopped (new_daemon sample_world), Ok Broke).
Proof.
  apply (pings_are_answered sample_world (new_daemon sample_world) false
           ping_line (request_of [("command", "ping")]) (PStr "ping") 3
           [EvLine shutdown_line]);
    reflexivity.
Defined.

(** X3.  A line of white space only is dropped: while the running flag is
    set, the run with the line is the run without it, in output, in
    actions and in the final state. *)
Theorem blank_line_is_dropped :
  forall (w : World) (st : Daemon w) (in_read : bool)
         (line : string) (rest : list event),
    running st = true ->
    is_empty line = false ->
    is_empty (py_strip line) = true ->
    main_loop w in_read (EvLine line :: rest) st
    = main_loop w in_read rest st.
Proof.
  intros w st in_read line rest Hrun Hline Hblank.
  rewrite (main_loop_continue w in_read line rest [] st st (or_intror Hrun)
             (serve_line_blank w line st Hline Hblank)).
  rewrite (main_loop_running w in_read rest st Hrun).
  destruct (main_loop w false rest st) as [[t' st'] r]. reflexivity.
Qed.

Lemma blank_line_is_dropped_witness :
  main_loop sample_world false [EvLine "  "; EvLine ping_line] sample_daemon
  = main_loop sample_world false [EvLine ping_line] sample_daemon.
Proof.
  apply (blank_line_is_dropped sample_world sample_daemon false "  "
           [EvLine ping_line]);
    reflexivity.
Defined.

Ltac quiet w :=
  repeat first
    [ progress intros
    | solve [auto with trace]
    | apply (@performs_only_bind (Daemon w) silent)
    | apply (@performs_only_try_except (Daemon w) silent)
    | match goal with
      | |- context [match ?x with _ => _ end] => destruct x
      | |- context [if ?b then _ else _] => destruct b
      end ].

Lemma load_raw_pcm_silent w p : performs_only silent (load_raw_pcm w p).
Proof. unfold load_raw_pcm. quiet w. Qed.
#[local] Hint Resolve load_raw_pcm_silent : trace.

Lemma engine_output_silent w p : performs_only silent (engine_output w p).
Proof. unfold engine_output. quiet w. Qed.
#[local] Hint Resolve engine_output_silent : trace.

Lemma transcribe_audio_silent w p : performs_only silent (transcribe_audio w p).
Proof. unfold transcribe_audio, transcribe_audio_body. quiet w. Qed.
#[local] Hint Resolve transcribe_audio_silent : trace.

Lemma process_request_silent w r : performs_only silent (process_request w r).
Proof. unfold process_request. quiet w. Qed.

Lemma silent_prints_nothing t : forallb silent t = true -> printed t = 0.
Proof.
  unfold printed. induction t as [| a t IH]; simpl; [reflexivity|].
  unfold silent at 1. destruct (is_stdout a); simpl; [discriminate | exact IH].
Qed.

Lemma printed_app t1 t2 : printed (t1 ++ t2) = printed t1 + printed t2.
Proof. unfold printed. rewrite filter_app, length_app. reflexivity. Qed.

(** X4.  One pass through the loop prints exactly one line for a line
    that is not blank, and none for a blank line or at the end of the
    input: whatever the decoder, the file system and the engine answer,
    and also when the response cannot be serialized. *)
Theorem one_line_per_request :
  forall (w : World) (line : string) (st : Daemon w),
    printed (fst (fst (serve_line w line st)))
    = if is_empty (py_strip line) then 0 else 1.
Proof.
  intros w line st.
  destruct (is_empty (py_strip line)) eqn:Hblank.
  - destruct (is_empty line) eqn:Hline.
    + destruct line; [reflexivity | discriminate].
    + rewrite (serve_line_blank w line st Hline Hblank). reflexivity.
  - pose proof (py_strip_nonblank _ Hblank) as Hline.
    destruct (json_loads w (py_strip line)) as [request | e] eqn:Hloads.
    + destruct (py_get request "command") as [command | e] eqn:Hget.
      * destruct (py_eq_str command "ping") eqn:Hping.
        { rewrite (serve_line_ping w line request command st
                     Hblank Hloads Hget Hping). reflexivity. }
        destruct (py_eq_str command "shutdown") eqn:Hshut.
        { rewrite (serve_line_shutdown w line request command st
                     Hblank Hloads Hget Hshut). reflexivity. }
        destruct (process_request_returns w request st)
          as (t & response & Hpr).
        assert (Hreach : reaches_transcription w line request).
        { split; [exact Hblank|]. split; [exact Hloads|].
          exists command. auto. }
        rewrite (serve_line_transcribe w line request t response st
                   Hreach Hpr).
        cbn [fst]. rewrite printed_app.
        pose proof (process_request_silent w request st) as Hq.
        rewrite Hpr in Hq. cbn [fst] in Hq.
        rewrite (silent_prints_nothing t Hq). reflexivity.
      * rewrite (serve_line_lookup_fails w line request e st
                   Hblank Hloads Hget). reflexivity.
    + destruct (is_JSONDecodeError e) eqn:Hclass.
      * rewrite (serve_line_bad_json w line e st Hblank Hloads Hclass).
        reflexivity.
      * unfold serve_line, try_except, bind, lift, ret, raise.
        cbv beta iota zeta. rewrite Hline, Hblank, Hloads, Hclass.
        cbv beta iota. rewrite print_error. reflexivity.
Qed.

(** ** Further properties: signals *)

Lemma main_loop_not_running w input (st : Daemon w) :
  running st = false ->
  main_loop w false input st = ([], st, Ok NotRunning).
Proof.
  intros Hrun. destruct input; cbn [main_loop];
    unfold bind, get, ret; cbv beta iota; rewrite Hrun; reflexivity.
Qed.

(** X5.  A termination signal that arrives while the daemon waits for a
    line prints the shutdown status line at once.  The line that is then
    read is still served in full, by a daemon whose running flag is
    clear, and the loop ends after it: the input behind that line is
    never read. *)
Theorem signal_lets_one_line_through :
  forall (w : World) (st : Daemon w) (in_read : bool)
         (line : string) (rest : list event),
    awaiting_input in_read st ->
    exists t st' c,
      serve_line w line (stopped st) = (t, st', Ok c)
      /\ main_loop w in_read (EvSignal :: EvLine line :: rest) st
         = (Stdout (status_line "shutdown" "Daemon shutting down") :: t,
            st',
            Ok match c with Continue => NotRunning | Break => Broke end).
Proof.
  intros w st in_read line rest Hready.
  destruct (serve_line_returns w line (stopped st)) as (t & st' & c & Hserve).
  exists t, st', c. split; [exact Hserve|].
  rewrite (main_loop_signal w in_read _ st Hready).
  fold (stopped st).
  rewrite (main_loop_line w true line rest (stopped st) (or_introl eq_refl)).
  rewrite Hserve. destruct c; [|reflexivity].
  pose proof (steadily_serve_line w line (stopped st)) as (_ & _ & Hflag).
  rewrite Hserve in Hflag. cbn [fst snd] in Hflag.
  rewrite (main_loop_not_running w rest st' (Hflag eq_refl)).
  rewrite app_nil_r. reflexivity.
Qed.

Lemma signal_lets_one_line_through_witness :
  exists t st' c,
    serve_line sample_world ping_line (stopped sample_daemon) = (t, st', Ok c)
    /\ main_loop sample_world false
         [EvSignal; EvLine ping_line; EvLine ping_line] sample_daemon
       = (Stdout (status_line "shutdown" "Daemon shutting down") :: t,
          st',
          Ok match c with Continue => NotRunning | Break => Broke end).
Proof.
  apply (signal_lets_one_line_through sample_world sample_daemon false
           ping_line [EvLine ping_line]).
  right. reflexivity.
Defined.

(** ** Further properties: loading the model *)

(** X6.  [initialize_model] never raises.  It returns [True] exactly when
    one of its two calls of the loader succeeded, and then the daemon
    holds the model that call returned, its other attributes unchanged;
    it returns [False] when both failed, and then the daemon is as it
    was.  It calls the loader at most twice. *)
Theorem initialize_model_outcome :
  forall (w : World) (st : Daemon w),
    exists t st' loaded,
      initialize_model w st = (t, st', Ok loaded)
      /\ List.length (filter is_load t) <= 2
      /\ match from_pretrained w (model_repo st) true,
               from_pretrained w (model_repo st) false with
         | Ok m, _ => loaded = true /\ st' = with_model st m
         | Raise _, Ok m => loaded = true /\ st' = with_model st m
         | Raise _, Raise _ => loaded = false /\ st' = st
         end.
Proof.
  intros w st. rewrite initialize_model_run.
  destruct (from_pretrained w (model_repo st) true) as [m | e1].
  - do 3 eexists. split; [reflexivity|]. split; [simpl; lia | auto].
  - destruct (from_pretrained w (model_repo st) false) as [m | e2];
      do 3 eexists; (split; [reflexivity|]); (split; [simpl; lia | auto]).
Qed.

(** ** Further properties: reading the samples *)

(** X7.  Whatever goes wrong in [load_raw_pcm], a value that is no path,
    a failing file-system call, a missing, unreadable or empty file, the
    exception that leaves it is a plain [Exception] whose message starts
    with [Error loading PCM data: ]; the class of the original exception
    is lost, its message is kept behind that prefix. *)
Theorem load_raw_pcm_wraps_every_failure :
  forall (w : World) (pcm_file_path : pyval) (st st' : Daemon w)
         (t : list action) (e : exn),
    load_raw_pcm w pcm_file_path st = (t, st', Raise e) ->
    exn_class e = PlainException
    /\ has_prefix "Error loading PCM data: " (exn_msg e) = true
    /\ st' = st.
Proof.
  intros w p st st' t e Hrun.
  pose proof (preserves_load_raw_pcm w p st) as Hst.
  rewrite Hrun in Hst. cbn [fst snd] in Hst. subst st'.
  unfold load_raw_pcm, try_except in Hrun.
  match type of Hrun with
  | context [match ?m st with _ => _ end] =>
      destruct (m st) as [[t0 st0] [audio | e0]]
  end.
  - discriminate.
  - unfold raise in Hrun. injection Hrun as _ _ <-.
    repeat split; reflexivity.
Qed.

Lemma load_raw_pcm_wraps_every_failure_witness :
  exn_class (mkExn PlainException
               "Error loading PCM data: expected str, bytes or os.PathLike object, not int")
  = PlainException
  /\ has_prefix "Error loading PCM data: "
       (exn_msg (mkExn PlainException
                   "Error loading PCM data: expected str, bytes or os.PathLike object, not int"))
     = true
  /\ sample_daemon = sample_daemon.
Proof.
  apply (load_raw_pcm_wraps_every_failure sample_world (PInt 5)
           sample_daemon sample_daemon []).
  reflexivity.
Defined.

(** The whole of [load_raw_pcm] on a path given as a string. *)
Lemma load_raw_pcm_run w (st : Daemon w) p :
  load_raw_pcm w (PStr p) st
  = let wrap e :=
      Raise (mkExn PlainException ("Error loading PCM data: " ++ exn_msg e)) in
    match path_exists w p with
    | Raise e => ([PathExists p], st, wrap e)
    | Ok false =>
        ([PathExists p], st,
         wrap (mkExn FileNotFoundError ("PCM file not found: " ++ p)))
    | Ok true =>
        match os_access w p with
        | Raise e => ([PathExists p; OsAccess p], st, wrap e)
        | Ok false =>
            ([PathExists p; OsAccess p], st,
             wrap (mkExn PermissionError ("Cannot read PCM file: " ++ p)))
        | Ok true =>
            match np_fromfile w p with
            | Raise e => ([PathExists p; OsAccess p; NpFromfile p], st, wrap e)
            | Ok [] =>
                ([PathExists p; OsAccess p; NpFromfile p], st,
                 wrap (mkExn ValueError "PCM file is empty"))
            | Ok audio =>
                ([PathExists p; OsAccess p; NpFromfile p], st, Ok audio)
            end
        end
    end.
Proof.
  unfold load_raw_pcm, try_except, bind, lift, perform, raise, ret.
  cbv beta iota zeta. cbn [Path py_str].
  destruct (path_exists w p) as [[|] | e]; try reflexivity.
  cbv beta iota. cbn [negb]. cbv beta iota.
  destruct (os_access w p) as [[|] | e]; try reflexivity.
  cbv beta iota. cbn [negb]. cbv beta iota.
  destruct (np_fromfile w p) as [[| x audio] | e]; reflexivity.
Qed.

Lemma load_raw_pcm_success :
  forall (w : World) (pcm_file_path : pyval) (st st' : Daemon w)
         (t : list action) (audio : list Z),
    load_raw_pcm w pcm_file_path st = (t, st', Ok audio) ->
    exists p,
      pcm_file_path = PStr p
      /\ path_exists w p = Ok true
      /\ os_access w p = Ok true
      /\ np_fromfile w p = Ok audio
      /\ audio <> []
      /\ t = [PathExists p; OsAccess p; NpFromfile p].
Proof.
  intros w v st st' t audio Hrun.
  destruct v as [| b | n | bits | p | xs | xs | kvs | cls attrs];
    try (cbv in Hrun; discriminate).
  exists p. split; [reflexivity|].
  rewrite load_raw_pcm_run in Hrun. cbv zeta in Hrun.
  destruct (path_exists w p) as [[|] | e]; try discriminate.
  destruct (os_access w p) as [[|] | e]; try discriminate.
  destruct (np_fromfile w p) as [[| x a] | e]; try discriminate.
  injection Hrun as <- _ <-.
  repeat split; try reflexivity. discriminate.
Qed.

(** X8.  [load_raw_pcm] returns samples only for a path given as a string
    that exists and is readable, and what it returns is the non-empty
    sequence [np.fromfile] read, after exactly one existence test, one
    access test and one read, in that order. *)
Theorem load_raw_pcm_returns_what_was_read :
  forall (w : World) (pcm_file_path : pyval) (st st' : Daemon w)
         (t : list action) (audio : list Z),
    load_raw_pcm w pcm_file_path st = (t, st', Ok audio) ->
    exists p,
      pcm_file_path = PStr p
      /\ path_exists w p = Ok true
      /\ os_access w p = Ok true
      /\ np_fromfile w p = Ok audio
      /\ audio <> []
      /\ t = [PathExists p; OsAccess p; NpFromfile p].
Proof.
  intros w v st st' t audio Hrun.
  exact (load_raw_pcm_success w v st st' t audio Hrun).
Qed.

Lemma load_raw_pcm_returns_what_was_read_witness :
  exists p,
    PStr "/tmp/audio.pcm" = PStr p
    /\ path_exists sample_world p = Ok true
    /\ os_access sample_world p = Ok true
    /\ np_fromfile sample_world p = Ok [0x3F800000; 0xBF000000]%Z
    /\ [0x3F800000; 0xBF000000]%Z <> []
    /\ [PathExists "/tmp/audio.pcm"; OsAccess "/tmp/audio.pcm";
        NpFromfile "/tmp/audio.pcm"]
       = [PathExists p; OsAccess p; NpFromfile p].
Proof.
  apply (load_raw_pcm_returns_what_was_read sample_world
           (PStr "/tmp/audio.pcm") sample_daemon sample_daemon).
  reflexivity.
Defined.

(** ** Further properties: calling the engine *)

Ltac accesses w :=
  repeat first
    [ progress intros
    | solve [auto with trace]
    | apply (@performs_only_bind (Daemon w) is_file_access)
    | apply (@performs_only_try_except (Daemon w) is_file_access)
    | match goal with
      | |- context [match ?x with _ => _ end] => destruct x
      | |- context [if ?b then _ else _] => destruct b
      end ].

Lemma load_raw_pcm_accesses w p : performs_only is_file_access (load_raw_pcm w p).
Proof. unfold load_raw_pcm. accesses w. Qed.

Lemma file_access_is_not_generate t :
  forallb is_file_access t = true -> ~ In Generate t.
Proof.
  intros H Hin. rewrite forallb_forall in H. apply H in Hin. discriminate.
Qed.

Lemma transcribe_audio_trace w p (st : Daemon w) :
  fst (fst (transcribe_audio w p st)) = fst (fst (engine_output w p st)).
Proof.
  destruct (engine_output w p st) as [[t st'] [r | e]] eqn:Hengine.
  - rewrite (transcribe_audio_after_engine w p st st' t r Hengine).
    destruct (extract_fields w r) as [[[text l] c] | e]; [|reflexivity].
    destruct (strip_text text); reflexivity.
  - rewrite (transcribe_audio_engine_fails w p st st' t e Hengine).
    reflexivity.
Qed.

(** X9.  [transcribe_audio] calls [model.generate] only when the daemon
    holds a model and the path is a string naming an existing, readable
    file from which a non-empty sequence of samples was read; its actions
    are then the three file accesses, the conversion, the feature
    extraction and the one call of the engine, in that order. *)
Theorem engine_runs_only_on_validated_audio :
  forall (w : World) (pcm_file_path : pyval) (st : Daemon w),
    In Generate (fst (fst (transcribe_audio w pcm_file_path st))) ->
    exists p audio,
      pcm_file_path = PStr p
      /\ model st <> None
      /\ path_exists w p = Ok true
      /\ os_access w p = Ok true
      /\ np_fromfile w p = Ok audio
      /\ audio <> []
      /\ fst (fst (transcribe_audio w pcm_file_path st))
         = [PathExists p; OsAccess p; NpFromfile p;
            MxArray; GetLogmel; Generate].
Proof.
  intros w v st. rewrite transcribe_audio_trace.
  destruct (model st) as [m |] eqn:Hm.
  - destruct (load_raw_pcm w v st) as [[t0 st0] [audio | e]] eqn:Hload.
    + destruct (load_raw_pcm_success w v st st0 t0 audio Hload)
        as (p & -> & Hex & Hacc & Hread & Hne & ->).
      rewrite (engine_output_stages w st st0 m (PStr p) _ audio Hm Hload).
      intros Hin. exists p, audio.
      repeat split; try assumption; try discriminate.
      destruct (mx_array w audio) as [a | e];
        [|simpl in Hin; intuition discriminate].
      destruct (preprocessor_config w m) as [c | e];
        [|simpl in Hin; intuition discriminate].
      destruct (get_logmel w a c) as [mel | e];
        [|simpl in Hin; intuition discriminate].
      reflexivity.
    + rewrite (engine_output_load_fails w st st0 m v t0 e Hm Hload).
      intros Hin. exfalso.
      pose proof (load_raw_pcm_accesses w v st) as Hacc.
      rewrite Hload in Hacc.
      exact (file_access_is_not_generate t0 Hacc Hin).
  - unfold engine_output, bind, get. cbv beta iota. rewrite Hm.
    intros Hin. contradiction.
Qed.

Lemma engine_runs_only_on_validated_audio_witness :
  exists p audio,
    PStr "/tmp/audio.pcm" = PStr p
    /\ model sample_daemon <> None
    /\ path_exists sample_world p = Ok true
    /\ os_access sample_world p = Ok true
    /\ np_fromfile sample_world p = Ok audio
    /\ audio <> []
    /\ fst (fst (transcribe_audio sample_world (PStr "/tmp/audio.pcm")
                   sample_daemon))
       = [PathExists p; OsAccess p; NpFromfile p;
          MxArray; GetLogmel; Generate].
Proof.
  apply (engine_runs_only_on_validated_audio sample_world
           (PStr "/tmp/audio.pcm") sample_daemon).
  vm_compute. auto 10.
Defined.

Lemma process_request_with_value w (st : Daemon w) request v :
  py_getitem request "pcm_path" = Ok v ->
  process_request w request st = transcribe_audio w v st.
Proof.
  intros Hitem.
  destruct request; try discriminate.
  pose proof Hitem as Hassoc. unfold py_getitem in Hassoc.
  destruct (assoc "pcm_path" kvs) as [x |] eqn:Hx; [|discriminate].
  injection Hassoc as ->.
  destruct (transcribe_audio_returns w v st) as (t & response & Hrun).
  unfold process_request, try_except, bind, lift, ret.
  cbn [py_contains]. unfold has_key. rewrite Hx. cbv beta iota. cbn [negb].
  cbv beta iota. rewrite Hitem. cbv beta iota. rewrite Hrun.
  reflexivity.
Qed.

(** X10.  A daemon that holds no model answers a request that carries a
    [pcm_path], whatever its value, with the error response
    [Model not initialized], and performs no action for it: the file is
    not looked at. *)
Theorem request_without_model_is_refused :
  forall (w : World) (st : Daemon w) (request v : pyval),
    model st = None ->
    py_getitem request "pcm_path" = Ok v ->
    process_request w request st
    = ([], st,
       Ok (error_response "Model not initialized"
             (format_exc w InTranscribeAudio
                (mkExn RuntimeError "Model not initialized")))).
Proof.
  intros w st request v Hm Hitem.
  rewrite (process_request_with_value w st request v Hitem).
  rewrite (transcribe_audio_engine_fails w v st st []
             (mkExn RuntimeError "Model not initialized")).
  - reflexivity.
  - unfold engine_output, bind, get, raise. cbv beta iota. rewrite Hm.
    reflexivity.
Qed.

Lemma request_without_model_is_refused_witness :
  process_request sample_world
    (request_of [("pcm_path", "/tmp/audio.pcm")]) (new_daemon sample_world)
  = ([], new_daemon sample_world,
     Ok (error_response "Model not initialized"
           "Traceback (most recent call last): Model not initialized")).
Proof.
  apply (request_without_model_is_refused sample_world
           (new_daemon sample_world)
           (request_of [("pcm_path", "/tmp/audio.pcm")])
           (PStr "/tmp/audio.pcm"));
    reflexivity.
Defined.

(** X11.  A request whose [pcm_path] is not a string (a number, null, a
    list, an object) is answered with the error response made from the
    [TypeError] of [Path], behind the prefix of [load_raw_pcm]; no file
    is touched and the engine is not called. *)
Theorem pcm_path_must_be_a_string :
  forall (w : World) (st : Daemon w) (request v : pyval),
    model st <> None ->
    py_getitem request "pcm_path" = Ok v ->
    isinstance_str v = false ->
    process_request w request st
    = ([], st,
       Ok (error_response
             ("Error loading PCM data: " ++ path_type_error w v)
             (format_exc w InTranscribeAudio
                (mkExn PlainException
                   ("Error loading PCM data: " ++ path_type_error w v))))).
Proof.
  intros w st request v Hmodel Hitem Hstr.
  destruct (model st) as [m |] eqn:Hm; [|congruence].
  rewrite (process_request_with_value w st request v Hitem).
  assert (Hload : load_raw_pcm w v st
                  = ([], st,
                     Raise (mkExn PlainException
                              ("Error loading PCM data: "
                               ++ path_type_error w v)))).
  { destruct v; try discriminate; reflexivity. }
  rewrite (transcribe_audio_engine_fails w v st st [] _
             (engine_output_load_fails w st st m v [] _ Hm Hload)).
  reflexivity.
Qed.

Lemma pcm_path_must_be_a_string_witness :
  process_request sample_world (PDict [("pcm_path", PInt 5)]) sample_daemon
  = ([], sample_daemon,
     Ok (error_response
           "Error loading PCM data: expected str, bytes or os.PathLike object, not int"
           "Traceback (most recent call last): Error loading PCM data: expected str, bytes or os.PathLike object, not int")).
Proof.
  apply (pcm_path_must_be_a_string sample_world sample_daemon
           (PDict [("pcm_path", PInt 5)]) (PInt 5)).
  - discriminate.
  - reflexivity.
  - reflexivity.
Defined.

(** ** Further properties: what is made of the engine's result *)

Lemma attr_or_attribute x name :
  attr_or x name PNone = Ok (attribute x name).
Proof.
  unfold attr_or, attribute, hasattr, getattr, has_key.
  destruct x; try reflexivity.
  destruct (assoc name attrs); reflexivity.
Qed.

(** A result that has a [text] member: the second and the fourth branch
    of the chain. *)
Lemma extract_fields_text_member w r kvs text :
  members r = Some kvs ->
  assoc "text" kvs = Some text ->
  extract_fields w r
  = Ok (text, or_none (assoc "language" kvs),
        or_none (assoc "confidence" kvs)).
Proof.
  intros Hmembers Htext. unfold extract_fields.
  destruct r; try discriminate; injection Hmembers as ->.
  - cbn [is_nonempty_list isinstance_list rbind hasattr
         has_nonempty_texts_attr is_dict_with_text isinstance_dict
         py_contains].
    unfold has_key, py_getitem, py_get. rewrite Htext. cbn [rbind].
    destruct (assoc "language" kvs), (assoc "confidence" kvs); reflexivity.
  - cbn [is_nonempty_list isinstance_list rbind].
    rewrite !attr_or_attribute. unfold hasattr, getattr, has_key.
    rewrite Htext. reflexivity.
Qed.

Lemma getattr_attribute x name :
  hasattr x name = true -> getattr x name = Ok (attribute x name).
Proof.
  unfold hasattr, getattr, attribute, has_key.
  destruct x; try discriminate.
  destruct (assoc name attrs); [reflexivity | discriminate].
Qed.

(** A list that is not empty: the first branch. *)
Lemma extract_fields_list w x xs :
  extract_fields w (PList (x :: xs))
  = Ok (if hasattr x "text" then attribute x "text" else PStr (py_str w x),
        attribute x "language", attribute x "confidence").
Proof.
  unfold extract_fields.
  cbn [is_nonempty_list isinstance_list py_len rbind List.length].
  replace (0 <? Z.of_nat (S (List.length xs)))%Z with true
    by (symmetry; apply Z.ltb_lt; lia).
  cbn [py_first rbind]. rewrite !attr_or_attribute.
  destruct (hasattr x "text") eqn:Htext.
  - rewrite (getattr_attribute x "text" Htext). reflexivity.
  - reflexivity.
Qed.

(** X12.  When the engine's result is an object or a dictionary with a
    [text] member holding a string, the response is the success response
    with that text trimmed and the [language] and [confidence] members of
    the result ([None] for a missing one), whatever else the result
    carries: a [texts] member beside it is not looked at. *)
Theorem text_member_has_priority :
  forall (w : World) (pcm_file_path : pyval) (st st' : Daemon w)
         (t : list action) (r : pyval)
         (kvs : list (string * pyval)) (text : string),
    engine_output w pcm_file_path st = (t, st', Ok r) ->
    members r = Some kvs ->
    assoc "text" kvs = Some (PStr text) ->
    transcribe_audio w pcm_file_path st
    = (t, st',
       Ok (success_response (PStr (py_strip text))
             (or_none (assoc "language" kvs))
             (or_none (assoc "confidence" kvs)))).
Proof.
  intros w pcm st st' t r kvs text Hengine Hmembers Htext.
  rewrite (transcribe_audio_after_engine w pcm st st' t r Hengine).
  rewrite (extract_fields_text_member w r kvs (PStr text) Hmembers Htext).
  rewrite strip_text_string. reflexivity.
Qed.

Lemma text_member_has_priority_witness :
  transcribe_audio
    (stub_world loads_offline
       (PDict [("texts", PList [PStr "other"]); ("text", PStr " chosen ");
               ("language", PStr "de")]))
    (PStr "/tmp/audio.pcm")
    (loaded loads_offline
       (PDict [("texts", PList [PStr "other"]); ("text", PStr " chosen ");
               ("language", PStr "de")]))
  = (audio_actions,
     loaded loads_offline
       (PDict [("texts", PList [PStr "other"]); ("text", PStr " chosen ");
               ("language", PStr "de")]),
     Ok (success_response (PStr (py_strip " chosen "))
           (or_none
              (assoc "language"
                 [("texts", PList [PStr "other"]); ("text", PStr " chosen ");
                  ("language", PStr "de")]))
           (or_none
              (assoc "confidence"
                 [("texts", PList [PStr "other"]); ("text", PStr " chosen ");
                  ("language", PStr "de")])))).
Proof.
  apply (text_member_has_priority _ (PStr "/tmp/audio.pcm") _ _ audio_actions
           (PDict [("texts", PList [PStr "other"]); ("text", PStr " chosen ");
                   ("language", PStr "de")])
           [("texts", PList [PStr "other"]); ("text", PStr " chosen ");
            ("language", PStr "de")]
           " chosen ");
    reflexivity.
Defined.

(** X13.  A [text] member that is falsy ([None], an empty string, zero,
    an empty list) gives a success response with the empty text: the
    result is not reported as an error. *)
Theorem falsy_text_gives_empty_text :
  forall (w : World) (pcm_file_path : pyval) (st st' : Daemon w)
         (t : list action) (r : pyval)
         (kvs : list (string * pyval)) (text : pyval),
    engine_output w pcm_file_path st = (t, st', Ok r) ->
    members r = Some kvs ->
    assoc "text" kvs = Some text ->
    truthy text = false ->
    transcribe_audio w pcm_file_path st
    = (t, st',
       Ok (success_response (PStr "")
             (or_none (assoc "language" kvs))
             (or_none (assoc "confidence" kvs)))).
Proof.
  intros w pcm st st' t r kvs text Hengine Hmembers Htext Hfalsy.
  rewrite (transcribe_audio_after_engine w pcm st st' t r Hengine).
  rewrite (extract_fields_text_member w r kvs text Hmembers Htext).
  unfold strip_text. rewrite Hfalsy. reflexivity.
Qed.

Lemma falsy_text_gives_empty_text_witness :
  transcribe_audio
    (stub_world loads_offline (PObj "AlignedResult" [("text", PNone)]))
    (PStr "/tmp/audio.pcm")
    (loaded loads_offline (PObj "AlignedResult" [("text", PNone)]))
  = (audio_actions,
     loaded loads_offline (PObj "AlignedResult" [("text", PNone)]),
     Ok (success_response (PStr "")
           (or_none (assoc "language" [("text", PNone)]))
           (or_none (assoc "confidence" [("text", PNone)])))).
Proof.
  apply (falsy_text_gives_empty_text _ (PStr "/tmp/audio.pcm") _ _
           audio_actions (PObj "AlignedResult" [("text", PNone)])
           [("text", PNone)] PNone);
    reflexivity.
Defined.



(** X15.  Of a list the engine returns only the first element is used:
    the response has the trimmed text of that element, or the trimmed
    [str] of the element when it has no [text] attribute, with its
    language and confidence; the other elements of the list change
    nothing. *)
Theorem only_the_first_result_is_used :
  forall (w : World) (pcm_file_path : pyval) (st st' : Daemon w)
         (t : list action) (x : pyval) (xs : list pyval) (text : string),
    engine_output w pcm_file_path st = (t, st', Ok (PList (x :: xs))) ->
    (if hasattr x "text" then attribute x "text" else PStr (py_str w x))
    = PStr text ->
    transcribe_audio w pcm_file_path st
    = (t, st',
       Ok (success_response (PStr (py_strip text))
             (attribute x "language") (attribute x "confidence"))).
Proof.
  intros w pcm st st' t x xs text Hengine Htext.
  rewrite (transcribe_audio_after_engine w pcm st st' t _ Hengine).
  rewrite extract_fields_list, Htext, strip_text_string. reflexivity.
Qed.

Lemma only_the_first_result_is_used_witness :
  transcribe_audio
    (stub_world loads_offline (PList [PStr " first "; PStr "second"]))
    (PStr "/tmp/audio.pcm")
    (loaded loads_offline (PList [PStr " first "; PStr "second"]))
  = (audio_actions,
     loaded loads_offline (PList [PStr " first "; PStr "second"]),
     Ok (success_response (PStr (py_strip " first "))
           (attribute (PStr " first ") "language")
           (attribute (PStr " first ") "confidence"))).
Proof.
  apply (only_the_first_result_is_used _ (PStr "/tmp/audio.pcm") _ _
           audio_actions (PStr " first ") [PStr "second"] " first ");
    reflexivity.
Defined.

(** ** Further properties: responses *)

(** X16.  When the language or the confidence the engine returned cannot
    be serialized (an object, say), the success response is never
    printed: the loop prints its own [Daemon error] line made from the
    failure of [json.dumps], and goes on. *)
Theorem unserializable_response_is_replaced :
  forall (w : World) (st : Daemon w) (line : string) (request : pyval)
         (t : list action) (text : string) (language confidence : pyval)
         (e : exn),
    reaches_transcription w line request ->
    process_request w request st
    = (t, st, Ok (success_response (PStr text) language confidence)) ->
    json_dumps w (PList [language; confidence]) = Raise e ->
    serve_line w line st
    = ((t ++ [Stdout (error_line ("Daemon error: " ++ exn_msg e)
                        (format_exc w InRunDaemon e))])%list,
       st, Ok Continue).
Proof.
  intros w st line request t text language confidence e Hreach Hpr Hdump.
  rewrite (serve_line_transcribe w line request t _ st Hreach Hpr).
  unfold response_line, success_response.
  cbn [json_dumps] in *.
  destruct (json_dumps w language) as [l | el].
  - destruct (json_dumps w confidence) as [c | ec]; [discriminate|].
    injection Hdump as ->. reflexivity.
  - injection Hdump as ->. reflexivity.
Qed.

Lemma unserializable_response_is_replaced_witness :
  serve_line
    (stub_world loads_offline
       (PObj "AlignedResult"
          [("text", PStr "hello"); ("language", PObj "Language" [])]))
    (transcribe_line "/tmp/audio.pcm")
    (loaded loads_offline
       (PObj "AlignedResult"
          [("text", PStr "hello"); ("language", PObj "Language" [])]))
  = ((audio_actions
      ++ [Stdout (error_line
                    ("Daemon error: " ++ exn_msg (not_serializable "Language"))
                    (format_exc
                       (stub_world loads_offline
                          (PObj "AlignedResult"
                             [("text", PStr "hello");
                              ("language", PObj "Language" [])]))
                       InRunDaemon (not_serializable "Language")))])%list,
     loaded loads_offline
       (PObj "AlignedResult"
          [("text", PStr "hello"); ("language", PObj "Language" [])]),
     Ok Continue).
Proof.
  apply (unserializable_response_is_replaced _ _
           (transcribe_line "/tmp/audio.pcm")
           (request_of [("pcm_path", "/tmp/audio.pcm")])
           audio_actions "hello" (PObj "Language" []) PNone
           (not_serializable "Language")).
  - split; [reflexivity|]. split; [reflexivity|].
    exists PNone. repeat split; reflexivity.
  - reflexivity.
  - reflexivity.
Defined.

Lemma transcribe_audio_status w p (st st' : Daemon w) t response :
  transcribe_audio w p st = (t, st', Ok response) ->
  status_of response = Some (PStr "success")
  \/ status_of response = Some (PStr "error").
Proof.
  intros Hrun.
  destruct (engine_output w p st) as [[t1 st1] [r | e]] eqn:Hengine.
  - rewrite (transcribe_audio_after_engine w p st st1 t1 r Hengine) in Hrun.
    destruct (extract_fields w r) as [[[text l] c] | e].
    + destruct (strip_text text); injection Hrun as _ _ <-; auto.
    + injection Hrun as _ _ <-. auto.
  - rewrite (transcribe_audio_engine_fails w p st st1 t1 e Hengine) in Hrun.
    injection Hrun as _ _ <-. auto.
Qed.

(** X17.  [process_request] answers every request value, a dictionary or
    not, with or without a path: it never raises, leaves the daemon
    object as it was, prints nothing itself, never calls the loader, and
    the response it returns has the status success or the status
    error. *)
Theorem process_request_always_answers :
  forall (w : World) (request : pyval) (st : Daemon w),
    exists t response,
      process_request w request st = (t, st, Ok response)
      /\ (status_of response = Some (PStr "success")
          \/ status_of response = Some (PStr "error"))
      /\ printed t = 0
      /\ filter is_load t = [].
Proof.
  intros w request st.
  destruct (process_request_returns w request st) as (t & response & Hpr).
  exists t, response. split; [exact Hpr|].
  pose proof (process_request_silent w request st) as Hquiet.
  pose proof (process_request_no_load w request st) as Hload.
  rewrite Hpr in Hquiet, Hload. cbn [fst] in Hquiet, Hload.
  split; [| split; [apply silent_prints_nothing; exact Hquiet
                   | apply no_load_filter; exact Hload]].
  unfold process_request, try_except, bind, lift, ret in Hpr.
  destruct (py_contains "pcm_path" request) as [[|] | e].
  - cbv beta iota in Hpr. cbn [negb] in Hpr. cbv beta iota in Hpr.
    destruct (py_getitem request "pcm_path") as [v | e].
    + cbv beta iota in Hpr.
      destruct (transcribe_audio w v st) as [[t1 st1] [resp | e]] eqn:Hrun.
      * injection Hpr; intros; subst.
        exact (transcribe_audio_status _ _ _ _ _ _ Hrun).
      * destruct (transcribe_audio_returns w v st) as (t2 & r2 & H2).
        congruence.
    + injection Hpr; intros; subst. auto.
  - injection Hpr; intros; subst. auto.
  - injection Hpr; intros; subst. auto.
Qed.

(** X18.  A request that is not a dictionary never reaches the file
    system or the engine: [process_request] answers it with an error
    response, that of the missing path when the value is a string or a
    sequence in which [pcm_path] does not occur, and that of its own
    handler otherwise. *)
Theorem request_that_is_no_dictionary :
  forall (w : World) (request : pyval) (st : Daemon w),
    isinstance_dict request = false ->
    exists response,
      process_request w request st = ([], st, Ok response)
      /\ (response = status_message "error" "Missing 'pcm_path' in request"
          \/ exists e,
               response
               = error_response ("Request processing failed: " ++ exn_msg e)
                   (format_exc w InProcessRequest e)).
Proof.
  intros w request st Hkind.
  unfold process_request, try_except, bind, lift, ret.
  destruct request; try discriminate; cbn [py_contains];
    try (eexists; split; [reflexivity | right; eexists; reflexivity]).
  - destruct (is_substring "pcm_path" s);
      eexists; (split; [reflexivity|]);
      [right; eexists; reflexivity | left; reflexivity].
  - match goal with
    | |- context [existsb ?f xs] => destruct (existsb f xs)
    end;
      eexists; (split; [reflexivity|]);
      [right; eexists; reflexivity | left; reflexivity].
  - match goal with
    | |- context [existsb ?f xs] => destruct (existsb f xs)
    end;
      eexists; (split; [reflexivity|]);
      [right; eexists; reflexivity | left; reflexivity].
Qed.

Lemma request_that_is_no_dictionary_witness :
  exists response,
    process_request sample_world (PList [PStr "pcm_path"]) sample_daemon
    = ([], sample_daemon, Ok response)
    /\ (response = status_message "error" "Missing 'pcm_path' in request"
        \/ exists e,
             response
             = error_response ("Request processing failed: " ++ exn_msg e)
                 (format_exc sample_world InProcessRequest e)).
Proof.
  apply (request_that_is_no_dictionary sample_world (PList [PStr "pcm_path"])
           sample_daemon).
  reflexivity.
Defined.

(** ** Further properties: the lines on standard output *)

Lemma all_printable_app s1 s2 :
  all_printable (s1 ++ s2) = all_printable s1 && all_printable s2.
Proof.
  induction s1 as [| c s1 IH]; simpl; [reflexivity|].
  rewrite IH, andb_assoc. reflexivity.
Qed.

Lemma escape_char_printable c : all_printable (escape_char c) = true.
Proof. destruct c as [[|] [|] [|] [|] [|] [|] [|] [|]]; reflexivity. Qed.

Lemma escape_string_printable s : all_printable (escape_string s) = true.
Proof.
  induction s as [| c s IH]; simpl; [reflexivity|].
  rewrite all_printable_app, escape_char_printable, IH. reflexivity.
Qed.

Lemma json_string_printable s : all_printable (json_string s) = true.
Proof.
  unfold json_string. cbn [all_printable].
  rewrite all_printable_app, escape_string_printable. reflexivity.
Qed.

Lemma json_member_printable k t :
  all_printable t = true -> all_printable (json_member k t) = true.
Proof.
  intros H. unfold json_member.
  rewrite !all_printable_app, json_string_printable, H. reflexivity.
Qed.

Lemma concat_printable ts :
  forallb all_printable ts = true ->
  all_printable (String.concat ", " ts) = true.
Proof.
  induction ts as [| t ts IH]; [reflexivity|].
  cbn [forallb]. intros H. apply andb_prop in H. destruct H as [Ht Hts].
  destruct ts as [| t' ts']; [exact Ht|].
  change (String.concat ", " (t :: t' :: ts'))
    with (t ++ ", " ++ String.concat ", " (t' :: ts')).
  rewrite !all_printable_app, Ht, (IH Hts). reflexivity.
Qed.

Lemma string_of_uint_printable d :
  all_printable (NilEmpty.string_of_uint d) = true.
Proof. induction d; simpl; auto. Qed.

Lemma string_of_Z_printable n : all_printable (string_of_Z n) = true.
Proof.
  unfold string_of_Z, NilZero.string_of_int, NilZero.string_of_uint.
  destruct (Z.to_int n) as [d | d]; destruct d;
    try reflexivity; cbn [all_printable];
    rewrite ?andb_true_l; apply (string_of_uint_printable (_ d)).
Qed.

Section CleanLines.
Variable w : World.
Hypothesis float_repr_printable :
  forall bits, all_printable (float_repr w bits) = true.

Lemma json_dumps_printable (v : pyval) :
  forall line, json_dumps w v = Ok line -> all_printable line = true.
Proof.
  induction v as [| b | n | bits | s | xs IH | xs IH | kvs IH | cls attrs IH]
    using pyval_induction; intros line Hline.
  - injection Hline as <-. reflexivity.
  - injection Hline as <-. destruct b; reflexivity.
  - injection Hline as <-. apply string_of_Z_printable.
  - injection Hline as <-. apply float_repr_printable.
  - injection Hline as <-. apply json_string_printable.
  - cbn [json_dumps] in Hline.
    match type of Hline with
    | context [match ?items xs with _ => _ end] => set (go := items) in *
    end.
    assert (Hgo : forall ts, go xs = Ok ts -> forallb all_printable ts = true).
    { clear Hline. induction IH as [| x rest Hx _ IHrest]; intros ts Hts.
      - injection Hts as <-. reflexivity.
      - change (go (x :: rest))
          with (match json_dumps w x with
                | Ok t => match go rest with
                          | Ok ts => Ok (t :: ts)
                          | Raise e => Raise e
                          end
                | Raise e => Raise e
                end) in Hts.
        destruct (json_dumps w x) as [t |]; [|discriminate].
        destruct (go rest) as [ts' |]; [|discriminate].
        injection Hts as <-. cbn [forallb].
        rewrite (Hx t eq_refl), (IHrest ts' eq_refl). reflexivity. }
    destruct (go xs) as [ts |]; [|discriminate].
    injection Hline as <-.
    cbn [all_printable]. rewrite all_printable_app, (concat_printable ts (Hgo ts eq_refl)).
    reflexivity.
  - cbn [json_dumps] in Hline.
    match type of Hline with
    | context [match ?items xs with _ => _ end] => set (go := items) in *
    end.
    assert (Hgo : forall ts, go xs = Ok ts -> forallb all_printable ts = true).
    { clear Hline. induction IH as [| x rest Hx _ IHrest]; intros ts Hts.
      - injection Hts as <-. reflexivity.
      - change (go (x :: rest))
          with (match json_dumps w x with
                | Ok t => match go rest with
                          | Ok ts => Ok (t :: ts)
                          | Raise e => Raise e
                          end
                | Raise e => Raise e
                end) in Hts.
        destruct (json_dumps w x) as [t |]; [|discriminate].
        destruct (go rest) as [ts' |]; [|discriminate].
        injection Hts as <-. cbn [forallb].
        rewrite (Hx t eq_refl), (IHrest ts' eq_refl). reflexivity. }
    destruct (go xs) as [ts |]; [|discriminate].
    injection Hline as <-.
    cbn [all_printable]. rewrite all_printable_app, (concat_printable ts (Hgo ts eq_refl)).
    reflexivity.
  - cbn [json_dumps] in Hline.
    match type of Hline with
    | context [match ?members kvs with _ => _ end] => set (go := members) in *
    end.
    assert (Hgo : forall ts, go kvs = Ok ts -> forallb all_printable ts = true).
    { clear Hline. induction IH as [| [k x] rest Hx _ IHrest]; intros ts Hts.
      - injection Hts as <-. reflexivity.
      - change (go ((k, x) :: rest))
          with (match json_dumps w x with
                | Ok t => match go rest with
                          | Ok ts => Ok (json_member k t :: ts)
                          | Raise e => Raise e
                          end
                | Raise e => Raise e
                end) in Hts.
        cbn [snd] in Hx.
        destruct (json_dumps w x) as [t |]; [|discriminate].
        destruct (go rest) as [ts' |]; [|discriminate].
        injection Hts as <-. cbn [forallb].
        rewrite (json_member_printable k t (Hx t eq_refl)),
          (IHrest ts' eq_refl).
        reflexivity. }
    destruct (go kvs) as [ts |]; [|discriminate].
    injection Hline as <-.
    cbn [all_printable]. rewrite all_printable_app, (concat_printable ts (Hgo ts eq_refl)).
    reflexivity.
  - discriminate.
Qed.

Lemma print_json_clean {S} v : performs_only one_clean_line (@print_json S w v).
Proof.
  intros s. rewrite print_json_run.
  destruct (json_dumps w v) as [line | e] eqn:Hline; [|reflexivity].
  cbn. rewrite (json_dumps_printable v line Hline). reflexivity.
Qed.

Ltac clean :=
  repeat first
    [ progress intros
    | apply print_json_clean
    | solve [auto with trace]
    | apply (@performs_only_bind (Daemon w) one_clean_line)
    | apply (@performs_only_try_except (Daemon w) one_clean_line)
    | match goal with
      | |- context [match ?x with _ => _ end] => destruct x
      | |- context [if ?b then _ else _] => destruct b
      end ].

Lemma load_raw_pcm_clean p : performs_only one_clean_line (load_raw_pcm w p).
Proof. unfold load_raw_pcm. clean. Qed.

Lemma process_request_clean r :
  performs_only one_clean_line (process_request w r).
Proof.
  unfold process_request, transcribe_audio, transcribe_audio_body,
    engine_output.
  pose proof load_raw_pcm_clean. clean.
Qed.

Lemma serve_line_clean line : performs_only one_clean_line (serve_line w line).
Proof.
  pose proof process_request_clean.
  unfold serve_line, set_running.
  apply performs_only_try_except; [| clean].
  destruct (is_empty line); [clean|].
  cbv zeta. destruct (is_empty (py_strip line)); [clean|].
  destruct (json_loads w (py_strip line)) as [request | e]; clean.
Qed.

Lemma main_loop_clean input : forall in_read,
  performs_only one_clean_line (main_loop w in_read input).
Proof.
  induction input as [| ev rest IH]; intros in_read; cbn [main_loop].
  - clean.
  - apply performs_only_bind; [auto with trace|]. intros st.
    destruct (negb in_read && negb (running st)); [auto with trace|].
    destruct ev as [line | |].
    + apply performs_only_bind; [apply serve_line_clean|].
      intros [|]; [apply IH | auto with trace].
    + apply performs_only_bind; [|intros; apply IH].
      unfold signal_handler, set_running. clean.
    + auto with trace.
Qed.

Lemma run_daemon_clean input :
  performs_only one_clean_line (run_daemon w input).
Proof.
  pose proof (main_loop_clean input false).
  unfold run_daemon, initialize_model, set_model. clean.
Qed.
End CleanLines.

(** X19.  Every line a run writes on standard output consists of
    printable ASCII characters only, whatever the messages, tracebacks
    and texts it carries: a line break or a control character inside a
    value is written as an escape, so one response is one line.  (The
    text written for a float is the environment's and is assumed
    printable.) *)
Theorem every_response_is_one_line :
  forall (w : World) (input : list event),
    (forall bits, all_printable (float_repr w bits) = true) ->
    forallb one_clean_line (fst (main w input)) = true.
Proof.
  intros w input Hfloat.
  pose proof (run_daemon_clean w Hfloat input (new_daemon w)) as H.
  unfold main.
  destruct (run_daemon w input (new_daemon w)) as [[t st] [status | e]];
    exact H.
Qed.

Lemma every_response_is_one_line_witness :
  forallb one_clean_line
    (fst (main sample_world
            [EvLine (transcribe_line "/nonexistent"); EvLine "{oops"]))
  = true.
Proof.
  apply (every_response_is_one_line sample_world
           [EvLine (transcribe_line "/nonexistent"); EvLine "{oops"]).
  intros bits. reflexivity.
Defined.

(** ** Further properties: order and independence of the responses *)

Lemma loop_test_passes w in_read (st : Daemon w) :
  negb in_read && negb (running st) = false -> awaiting_input in_read st.
Proof.
  intros Hc. unfold awaiting_input. destruct in_read; [auto|].
  simpl in Hc. destruct (running st); [auto | discriminate].
Qed.

Lemma main_loop_stops w in_read input (st : Daemon w) :
  negb in_read && negb (running st) = true ->
  main_loop w in_read input st = ([], st, Ok NotRunning).
Proof.
  intros Hc. destruct input; cbn [main_loop];
    unfold bind, get, ret; cbv beta iota; rewrite Hc; reflexivity.
Qed.

(** X20.  What the daemon has done after a first part of the input does
    not depend on what follows: the actions of a run of the loop over
    [earlier ++ later] begin with the actions of its run over [earlier]
    alone.  Responses are written in the order of the requests and none
    is held back or revised. *)
Theorem output_so_far_is_final :
  forall (w : World) (earlier later : list event)
         (in_read : bool) (st : Daemon w),
    exists t',
      fst (fst (main_loop w in_read (earlier ++ later) st))
      = (fst (fst (main_loop w in_read earlier st)) ++ t')%list.
Proof.
  intros w earlier later.
  induction earlier as [| ev rest IH]; intros in_read st.
  - assert (Hnil : fst (fst (main_loop w in_read [] st)) = []).
    { cbn [main_loop]. unfold bind, get, ret. cbv beta iota.
      destruct (negb in_read && negb (running st)); reflexivity. }
    rewrite Hnil. eexists. reflexivity.
  - destruct (negb in_read && negb (running st)) eqn:Hc.
    + rewrite !main_loop_stops by assumption. exists []. reflexivity.
    + pose proof (loop_test_passes w in_read st Hc) as Hready.
      rewrite <- app_comm_cons.
      destruct ev as [line | |].
      * rewrite !main_loop_line by assumption.
        destruct (serve_line w line st) as [[t st1] [[|] | e]].
        { destruct (IH false st1) as (t' & Ht').
          destruct (main_loop w false (rest ++ later) st1) as [[t2 st2] r2].
          destruct (main_loop w false rest st1) as [[t3 st3] r3].
          cbn [fst] in *. exists t'. rewrite Ht', app_assoc. reflexivity. }
        { exists []. rewrite app_nil_r. reflexivity. }
        { exists []. rewrite app_nil_r. reflexivity. }
      * rewrite !main_loop_signal by assumption.
        destruct (IH true (mkDaemon (model st) (model_repo st) false))
          as (t' & Ht').
        destruct (main_loop w true (rest ++ later) _) as [[t2 st2] r2].
        destruct (main_loop w true rest _) as [[t3 st3] r3].
        cbn [fst] in *. exists t'. rewrite Ht'. reflexivity.
      * exists []. cbn [main_loop]. unfold bind, get, ret. cbv beta iota.
        rewrite Hc. reflexivity.
Qed.

(** X21.  A pass through the loop that does not leave it gives the
    daemon object back exactly as it found it: only the shutdown command
    writes to the daemon.  So how a request is answered does not depend
    on the requests served before it. *)
Theorem requests_do_not_interfere :
  forall (w : World) (line next : string) (st st' : Daemon w)
         (t : list action),
    serve_line w line st = (t, st', Ok Continue) ->
    st' = st /\ serve_line w next st' = serve_line w next st.
Proof.
  intros w line next st st' t Hserve.
  assert (Hsame : st' = st); [|subst st'; auto].
  destruct (is_empty (py_strip line)) eqn:Hblank.
  - destruct (is_empty line) eqn:Hline.
    + destruct line; [discriminate | discriminate].
    + rewrite (serve_line_blank w line st Hline Hblank) in Hserve.
      congruence.
  - pose proof (py_strip_nonblank _ Hblank) as Hline.
    destruct (json_loads w (py_strip line)) as [request | e] eqn:Hloads.
    + destruct (py_get request "command") as [command | e] eqn:Hget.
      * destruct (py_eq_str command "ping") eqn:Hping.
        { rewrite (serve_line_ping w line request command st
                     Hblank Hloads Hget Hping) in Hserve. congruence. }
        destruct (py_eq_str command "shutdown") eqn:Hshut.
        { rewrite (serve_line_shutdown w line request command st
                     Hblank Hloads Hget Hshut) in Hserve. discriminate. }
        destruct (process_request_returns w request st)
          as (t1 & response & Hpr).
        assert (Hreach : reaches_transcription w line request).
        { split; [exact Hblank|]. split; [exact Hloads|].
          exists command. auto. }
        rewrite (serve_line_transcribe w line request t1 response st
                   Hreach Hpr) in Hserve.
        congruence.
      * rewrite (serve_line_lookup_fails w line request e st
                   Hblank Hloads Hget) in Hserve. congruence.
    + destruct (is_JSONDecodeError e) eqn:Hclass.
      * rewrite (serve_line_bad_json w line e st Hblank Hloads Hclass)
          in Hserve.
        congruence.
      * unfold serve_line, try_except, bind, lift, ret, raise in Hserve.
        cbv beta iota zeta in Hserve.
        rewrite Hline, Hblank, Hloads, Hclass in Hserve.
        cbv beta iota in Hserve. rewrite print_error in Hserve.
        congruence.
Qed.

Lemma requests_do_not_interfere_witness :
  sample_daemon = sample_daemon
  /\ serve_line sample_world ping_line sample_daemon
     = serve_line sample_world ping_line sample_daemon.
Proof.
  apply (requests_do_not_interfere sample_world
           (transcribe_line "/tmp/audio.pcm") ping_line
           sample_daemon sample_daemon
           (audio_actions
            ++ [Stdout (success_line "hello world" "null" "null")])).
  reflexivity.
Defined.
